(** * FileForge: the conversion engine and its batch runner

    A shallow embedding of [fileforge/core/types.py] and
    [fileforge/core/fileforge.py].

    Conventions of the embedding.
    - A Python [str] is a Rocq [string] holding its UTF-8 encoding, so
      [s.encode('utf-8')] is [list_byte_of_string]; [bytes] is [list byte].
    - [async def] bodies are run to completion one after the other: the
      coroutines of the engine only suspend inside awaited collaborators,
      and a batch runs its tasks in submission order.
    - Exceptions are instances of Python's [Exception]; an effectful call
      returns an [outcome] together with the new state.  Signals outside
      that class (keyboard interrupts, task cancellation) are not
      modelled.
    - Everything outside the engine (file system, clock, caller's
      variables, plug-in internals) is one abstract [World].
    - [time.time()] is read from the world as an integer number of ticks.
    - The options object is passed around as a value: [convert] hands it
      to the plug-ins to read and gives back the object as its own
      assignment leaves it.  [convert_shared] is the same method with
      the object in a cell of the world that the plug-ins can write;
      the two agree for plug-ins that only read. *)

From Stdlib Require Import ZArith Strings.Byte Strings.Ascii Strings.String.
From stdpp Require Import base option list strings gmap.

Local Open Scope string_scope.
Local Open Scope Z_scope.

(** ** Exceptions and outcomes *)

Inductive ExcClass :=
  | ValueError | OSError | AttributeError | NotImplementedError | OtherException.

(** [exn_str e] is [str(e)]. *)
Record Exn := MkExn { exn_class : ExcClass; exn_str : string }.

Inductive outcome (A : Type) :=
  | Ok (a : A)
  | Raise (e : Exn).
Arguments Ok {A} a.
Arguments Raise {A} e.

Definition bytes := list byte.

(** ** A state-and-exception monad, generic in the state *)

Definition M (S A : Type) : Type := S -> outcome A * S.

Definition mret {S A} (a : A) : M S A := fun s => (Ok a, s).

Definition mbind {S A B} (c : M S A) (k : A -> M S B) : M S B :=
  fun s => match c s with
           | (Ok a, s') => k a s'
           | (Raise e, s') => (Raise e, s')
           end.

Definition raise {S A} (e : Exn) : M S A := fun s => (Raise e, s).

(** [try: c except Exception as e: handler e] *)
Definition try_except {S A} (c : M S A) (handler : Exn -> M S A) : M S A :=
  fun s => match c s with
           | (Ok a, s') => (Ok a, s')
           | (Raise e, s') => handler e s'
           end.

(** A computation without effect on the state. *)
Definition of_outcome {S A} (r : outcome A) : M S A := fun s => (r, s).

Definition gets {S A} (f : S -> A) : M S A := fun s => (Ok (f s), s).
Definition modify {S} (f : S -> S) : M S unit := fun s => (Ok tt, f s).

Notation "x <- c1 ;; c2" := (mbind c1 (fun x => c2))
  (at level 100, c1 at next level, right associativity).
Notation "c1 ;;; c2" := (mbind c1 (fun _ => c2))
  (at level 100, right associativity).

(** ** Python helpers *)

(** Truthiness of a [str]: the empty string is falsy. *)
Definition str_truthy (s : string) : bool := negb (String.eqb s "").

(** Truthiness of an [Optional[str]]: [None] and [''] are falsy. *)
Definition truthy (o : option string) : bool :=
  match o with
  | Some s => str_truthy s
  | None => false
  end.

(** [s.lstrip('.')] *)
Fixpoint lstrip_dot (s : string) : string :=
  match s with
  | String c r => if Ascii.eqb c "."%char then lstrip_dot r else s
  | EmptyString => s
  end.

(** [x in xs] on lists of strings *)
Definition str_in (x : string) (xs : list string) : bool :=
  existsb (String.eqb x) xs.

(** ** types.py *)

Inductive CompressionLevel := NONE | LOW | MEDIUM | HIGH | MAXIMUM.

Definition CompressionLevel_value (c : CompressionLevel) : string :=
  match c with
  | NONE => "none"
  | LOW => "low"
  | MEDIUM => "medium"
  | HIGH => "high"
  | MAXIMUM => "maximum"
  end.

Section Model.

(** [PyAny] stands for the values of the [Dict[str, Any]] option bags,
    [MetadataResult] for the record the metadata extractor produces (the
    engine only stores it), [World] for the state outside the engine. *)
Context {PyAny MetadataResult World : Type}.

Record ConversionOptions := {
  co_output_format : option string;
  co_output_dir : option string;
  co_output_name : option string;
  co_compression : CompressionLevel;
  co_quality : Z;
  co_ocr : bool;
  co_ocr_language : string;
  co_metadata : bool;
  co_streaming : bool;
  co_buffer_size : Z;
  co_format_options : gmap string PyAny;
  co_ai : option (gmap string PyAny);
  co_tts : option (gmap string PyAny);
  co_image : option (gmap string PyAny);
  co_video : option (gmap string PyAny);
  co_audio : option (gmap string PyAny);
  co_debug : bool;
  co_plugin : option string
}.

(** [ConversionOptions()] *)
Definition ConversionOptions_default : ConversionOptions := {|
  co_output_format := None;
  co_output_dir := None;
  co_output_name := None;
  co_compression := MEDIUM;
  co_quality := 85;
  co_ocr := false;
  co_ocr_language := "por";
  co_metadata := false;
  co_streaming := false;
  co_buffer_size := 256 * 1024;
  co_format_options := ∅;
  co_ai := None;
  co_tts := None;
  co_image := None;
  co_video := None;
  co_audio := None;
  co_debug := false;
  co_plugin := None
|}.

(** [options.output_format = v] *)
Definition set_output_format (o : ConversionOptions) (v : option string)
  : ConversionOptions := {|
  co_output_format := v;
  co_output_dir := co_output_dir o;
  co_output_name := co_output_name o;
  co_compression := co_compression o;
  co_quality := co_quality o;
  co_ocr := co_ocr o;
  co_ocr_language := co_ocr_language o;
  co_metadata := co_metadata o;
  co_streaming := co_streaming o;
  co_buffer_size := co_buffer_size o;
  co_format_options := co_format_options o;
  co_ai := co_ai o;
  co_tts := co_tts o;
  co_image := co_image o;
  co_video := co_video o;
  co_audio := co_audio o;
  co_debug := co_debug o;
  co_plugin := co_plugin o
|}.

Record ConversionResult := {
  cr_success : bool;
  cr_original_format : string;
  cr_output_format : string;
  cr_original_size : nat;
  cr_processing_time : Z;
  cr_output_path : option string;
  cr_data : option bytes;
  cr_output_size : option nat;
  cr_metadata : option MetadataResult;
  cr_errors : list string;
  cr_warnings : list string
}.

(** [result.output_path = p] *)
Definition set_output_path (r : ConversionResult) (p : option string)
  : ConversionResult := {|
  cr_success := cr_success r;
  cr_original_format := cr_original_format r;
  cr_output_format := cr_output_format r;
  cr_original_size := cr_original_size r;
  cr_processing_time := cr_processing_time r;
  cr_output_path := p;
  cr_data := cr_data r;
  cr_output_size := cr_output_size r;
  cr_metadata := cr_metadata r;
  cr_errors := cr_errors r;
  cr_warnings := cr_warnings r
|}.

(** A call of a collaborator: it may change the world and may raise. *)
Definition Eff (A : Type) : Type := M World A.

(** What [Plugin.convert] hands back: [bytes], [str], or (the language
    being dynamically typed) something else. *)
Inductive PluginOutput :=
  | OutBytes (b : bytes)
  | OutStr (s : string)
  | OutOther.

(** A plug-in, as the abstract base class declares it.  Its conversion
    reads the options and acts on the world; a plug-in that writes to
    the options object it is passed is a plug-in over a world that
    holds the object ([Shared], further down). *)
Record Plugin := {
  pl_name : string;
  pl_version : string;
  pl_input_formats : list string;
  pl_output_formats : list string;
  pl_convert : bytes -> ConversionOptions -> Eff PluginOutput
}.

(** [Plugin.can_convert] *)
Definition can_convert (p : Plugin) (input_format output_format : string) : bool :=
  str_in input_format (pl_input_formats p) &&
  str_in output_format (pl_output_formats p).

Record ErrorEntry := { ee_file : string; ee_error : string }.

Record BatchConversionOptions := {
  bo_base : ConversionOptions;
  bo_patterns : list string;
  bo_max_concurrency : Z;
  bo_continue_on_error : bool;
  bo_on_progress : option (nat -> nat -> string -> Eff unit);
  bo_on_error : option (Exn -> string -> Eff unit)
}.

(** [BatchConversionOptions()] *)
Definition BatchConversionOptions_default : BatchConversionOptions := {|
  bo_base := ConversionOptions_default;
  bo_patterns := [];
  bo_max_concurrency := 5;
  bo_continue_on_error := true;
  bo_on_progress := None;
  bo_on_error := None
|}.

Definition set_base (o : BatchConversionOptions) (b : ConversionOptions)
  : BatchConversionOptions := {|
  bo_base := b;
  bo_patterns := bo_patterns o;
  bo_max_concurrency := bo_max_concurrency o;
  bo_continue_on_error := bo_continue_on_error o;
  bo_on_progress := bo_on_progress o;
  bo_on_error := bo_on_error o
|}.

Record BatchConversionResult := {
  br_total_files : nat;
  br_success_count : nat;
  br_error_count : nat;
  br_results : list ConversionResult;
  br_errors : list ErrorEntry;
  br_total_time : Z
}.


(** ** The engine's surroundings *)

(** The standard-library services the engine calls ([time], [open],
    [pathlib], [mimetypes], [glob]) and the static method of
    [FileUtils], whose source file is not at hand and which is therefore
    taken as given: a function of the buffer that returns a format token
    or raises. *)
Record Host := {
  clock : World -> Z;                               (* time.time() *)
  read_file : string -> Eff bytes;                  (* open(p, 'rb').read() *)
  mkdir_parents : string -> Eff unit;               (* Path(p).mkdir(parents=True, exist_ok=True) *)
  write_file : string -> bytes -> Eff unit;         (* open(p, 'wb').write(data) *)
  glob_glob : string -> World -> list string;       (* glob.glob(pattern, recursive=True) *)
  path_suffix : string -> string;                   (* Path(p).suffix *)
  path_parent : string -> string;                   (* str(Path(p).parent) *)
  path_stem : string -> string;                     (* Path(p).stem *)
  path_join : string -> string -> string;           (* str(Path(d) / n) *)
  str_lower : string -> string;                     (* s.lower() *)
  guess_type : string -> option string;             (* mimetypes.guess_type(n)[0] *)
  guess_extension : string -> option string;        (* mimetypes.guess_extension(t) *)
  detect_format_by_signature : bytes -> outcome string
                                      (* FileUtils.detect_format_by_signature(buffer) *)
}.

(** The engine object: the plug-ins of its [PluginManager] in
    registration order, and the [extract] operation of its
    [MetadataExtractor] (buffer, format, path hint).  The configuration
    and the stream processor take no part in the methods below. *)
Record FileForge := {
  plugin_manager : list Plugin;
  metadata_extractor : bytes -> string -> option string -> Eff MetadataResult
}.

Inductive Direction := DirInput | DirOutput.

(** Modelled from the spec: [PluginManager.is_format_supported], whose
    source file is missing.  True if any registered plug-in declares the
    format in its input (direction "input") or output (direction
    "output") set. *)
Definition is_format_supported (ff : FileForge) (format_name : string)
    (type_ : Direction) : bool :=
  existsb (fun p => match type_ with
                    | DirInput => str_in format_name (pl_input_formats p)
                    | DirOutput => str_in format_name (pl_output_formats p)
                    end)
          (plugin_manager ff).

(** Modelled from the spec: [PluginManager.find_plugin], whose source
    file is missing.  The first registered plug-in, in registration
    order, whose capability set contains both formats. *)
Definition find_plugin (ff : FileForge) (input_format output_format : string)
  : option Plugin :=
  List.find (fun p => can_convert p input_format output_format) (plugin_manager ff).

(** ** The state the engine runs in *)

(** Calls of the two batch callbacks are recorded as they are made. *)
Inductive event :=
  | EvProgress (current total : nat) (file_path : string)
  | EvError (e : Exn) (file_path : string).

Record state := { st_world : World; st_log : list event }.

Definition lift {A} (c : Eff A) : M state A :=
  fun s => match c (st_world s) with
           | (r, w) => (r, {| st_world := w; st_log := st_log s |})
           end.

Definition log (ev : event) : M state unit :=
  modify (fun s => {| st_world := st_world s; st_log := (st_log s ++ [ev])%list |}).

Definition now (h : Host) : M state Z := gets (fun s => clock h (st_world s)).

(** What the caller hands to [convert] and [extract_metadata]:
    [bytes], a [str] or [Path] (both used through [str(...)]), or a
    value of another type. *)
Inductive InputData :=
  | InBytes (b : bytes)
  | InPath (p : string)
  | InOther.

(** ** fileforge.py: private methods *)

Definition _prepare_input (h : Host) (input_data : InputData)
  : M state (bytes * option string) :=
  match input_data with
  | InBytes b => mret (b, None)
  | InPath file_path =>
      data <- lift (read_file h file_path) ;;
      mret (data, Some file_path)
  | InOther => raise (MkExn ValueError "Tipo de entrada não suportado")
  end.

Definition _detect_format (ff : FileForge) (h : Host) (buffer : bytes)
    (file_path : option string) : M state string :=
  let by_signature := of_outcome (detect_format_by_signature h buffer) in
  let by_mime :=
    let suffix :=
      match file_path with
      | Some p => if str_truthy p then path_suffix h p else ""
      | None => ""
      end in
    let mime_type := guess_type h ("dummy" +:+ suffix) in
    if truthy mime_type then
      let ext := guess_extension h (default "" mime_type) in
      if truthy ext then
        let ext := lstrip_dot (default "" ext) in
        if is_format_supported ff ext DirInput then mret ext
        else by_signature
      else by_signature
    else by_signature in
  if truthy file_path then
    let ext := lstrip_dot (str_lower h (path_suffix h (default "" file_path))) in
    if str_truthy ext && is_format_supported ff ext DirInput then mret ext
    else by_mime
  else by_mime.

(** [result if isinstance(result, bytes) else result.encode('utf-8')] *)
Definition as_bytes (result : PluginOutput) : M state bytes :=
  match result with
  | OutBytes b => mret b
  | OutStr s => mret (list_byte_of_string s)
  | OutOther => raise (MkExn AttributeError "object has no attribute 'encode'")
  end.

Definition _optimize_file (ff : FileForge) (input_data : bytes)
    (format_name : string) (options : ConversionOptions) : M state bytes :=
  if String.eqb (CompressionLevel_value (co_compression options)) "none" then
    mret input_data
  else
    match find_plugin ff format_name format_name with
    | Some plugin =>
        result <- lift (pl_convert plugin input_data options) ;;
        as_bytes result
    | None => mret input_data
    end.

Definition _execute_conversion (ff : FileForge) (input_data : bytes)
    (input_format output_format : string) (options : ConversionOptions)
  : M state bytes :=
  if String.eqb input_format output_format then
    _optimize_file ff input_data output_format options
  else
    match find_plugin ff input_format output_format with
    | None =>
        raise (MkExn ValueError
                 ("Conversão não suportada: " +:+ input_format +:+ " → " +:+ output_format))
    | Some plugin =>
        result <- lift (pl_convert plugin input_data options) ;;
        as_bytes result
    end.

Definition _save_output (h : Host) (data : bytes) (format_name : string)
    (options : ConversionOptions) (original_path : option string)
  : M state string :=
  let output_dir :=
    if truthy (co_output_dir options) then default "" (co_output_dir options)
    else if truthy original_path then path_parent h (default "" original_path)
    else "./" in
  let output_name :=
    if negb (truthy (co_output_name options)) && truthy original_path then
      path_stem h (default "" original_path) +:+ "." +:+ format_name
    else if negb (truthy (co_output_name options)) then
      "output." +:+ format_name
    else default "" (co_output_name options) in
  let output_path := path_join h output_dir output_name in
  lift (mkdir_parents h (path_parent h output_path)) ;;;
  lift (write_file h output_path data) ;;;
  mret output_path.

(** ** fileforge.py: public methods *)

Definition extract_metadata (ff : FileForge) (h : Host) (input_data : InputData)
    (format_hint : option string) : M state MetadataResult :=
  prepared <- _prepare_input h input_data ;;
  let input_buffer := fst prepared in
  let input_path := snd prepared in
  detected_format <-
    (if truthy format_hint then mret (default "" format_hint)
     else _detect_format ff h input_buffer input_path) ;;
  lift (metadata_extractor ff input_buffer detected_format input_path).

(** The body of the [try] block of [convert]. *)
Definition convert_try (ff : FileForge) (h : Host) (input_data : InputData)
    (output_format : string) (options : ConversionOptions) (start_time : Z)
  : M state ConversionResult :=
  prepared <- _prepare_input h input_data ;;
  let input_buffer := fst prepared in
  let input_path := snd prepared in
  original_format <- _detect_format ff h input_buffer input_path ;;
  if negb (is_format_supported ff original_format DirInput) then
    raise (MkExn ValueError ("Formato de entrada não suportado: " +:+ original_format))
  else if negb (is_format_supported ff output_format DirOutput) then
    raise (MkExn ValueError ("Formato de saída não suportado: " +:+ output_format))
  else
    metadata <-
      (if co_metadata options then
         m <- extract_metadata ff h (InBytes input_buffer) (Some original_format) ;;
         mret (Some m)
       else mret None) ;;
    output_data <- _execute_conversion ff input_buffer original_format
                     output_format options ;;
    end_time <- now h ;;
    let result := {|
      cr_success := true;
      cr_original_format := original_format;
      cr_output_format := output_format;
      cr_original_size := length input_buffer;
      cr_processing_time := end_time - start_time;
      cr_output_path := None;
      cr_data := Some output_data;
      cr_output_size := Some (length output_data);
      cr_metadata := metadata;
      cr_errors := [];
      cr_warnings := []
    |} in
    if truthy (co_output_dir options) || truthy (co_output_name options) then
      output_path <- _save_output h output_data output_format options input_path ;;
      mret (set_output_path result (Some output_path))
    else mret result.

(** The [except Exception as e] branch of [convert]. *)
Definition convert_except (h : Host) (output_format : string) (start_time : Z)
    (e : Exn) : M state ConversionResult :=
  end_time <- now h ;;
  mret {|
    cr_success := false;
    cr_original_format := "unknown";
    cr_output_format := output_format;
    cr_original_size := 0;
    cr_processing_time := end_time - start_time;
    cr_output_path := None;
    cr_data := None;
    cr_output_size := None;
    cr_metadata := None;
    cr_errors := [exn_str e];
    cr_warnings := []
  |}.

(** [FileForge.convert].  Besides the outcome and the new state, the
    result carries the options object as the call leaves it: the object
    the caller passed, or the fresh one made when none was passed, with
    [options.output_format = output_format] done.  What a plug-in
    writes to the object is the matter of [convert_shared]. *)
Definition convert (ff : FileForge) (h : Host) (input_data : InputData)
    (output_format : string) (options : option ConversionOptions) (s : state)
  : outcome ConversionResult * ConversionOptions * state :=
  let start_time := clock h (st_world s) in
  let options := default ConversionOptions_default options in
  let options := set_output_format options (Some output_format) in
  let '(r, s') :=
    try_except (convert_try ff h input_data output_format options start_time)
               (convert_except h output_format start_time) s in
  (r, options, s').

(** ** fileforge.py: [convert_batch] *)

(** [patterns: Union[str, List[str]]] *)
Inductive Patterns :=
  | OnePattern (p : string)
  | ManyPatterns (ps : list string).

(** The variables the per-file tasks share: the engine state, the
    options object (it is the object [convert] writes to), the [errors]
    list of the enclosing call and the counter of the semaphore. *)
Record batch_state := {
  bs_state : state;
  bs_options : BatchConversionOptions;
  bs_errors : list ErrorEntry;
  bs_semaphore : Z
}.

Definition set_semaphore (bs : batch_state) (v : Z) : batch_state := {|
  bs_state := bs_state bs;
  bs_options := bs_options bs;
  bs_errors := bs_errors bs;
  bs_semaphore := v
|}.

Definition lift_state {A} (c : M state A) : M batch_state A :=
  fun bs => match c (bs_state bs) with
            | (r, s') => (r, {| bs_state := s';
                                bs_options := bs_options bs;
                                bs_errors := bs_errors bs;
                                bs_semaphore := bs_semaphore bs |})
            end.

(** [errors.append(entry)] *)
Definition errors_append (entry : ErrorEntry) : M batch_state unit :=
  modify (fun bs => {| bs_state := bs_state bs;
                       bs_options := bs_options bs;
                       bs_errors := (bs_errors bs ++ [entry])%list;
                       bs_semaphore := bs_semaphore bs |}).

(** [await self.convert(file_path, output_format, options)] with the
    shared options object. *)
Definition call_convert (ff : FileForge) (h : Host) (file_path output_format : string)
  : M batch_state ConversionResult :=
  fun bs =>
    match convert ff h (InPath file_path) output_format
                  (Some (bo_base (bs_options bs))) (bs_state bs) with
    | (r, base, s') => (r, {| bs_state := s';
                              bs_options := set_base (bs_options bs) base;
                              bs_errors := bs_errors bs;
                              bs_semaphore := bs_semaphore bs |})
    end.

(** [options.on_progress(current, total, file_path)] *)
Definition call_on_progress (on_progress : nat -> nat -> string -> Eff unit)
    (current total : nat) (file_path : string) : M batch_state unit :=
  lift_state (log (EvProgress current total file_path) ;;;
              lift (on_progress current total file_path)).

(** [options.on_error(e, file_path)] *)
Definition call_on_error (on_error : Exn -> string -> Eff unit)
    (e : Exn) (file_path : string) : M batch_state unit :=
  lift_state (log (EvError e file_path) ;;; lift (on_error e file_path)).

(** The [try]/[except] of the nested [convert_file]; [results] and
    [total_files] are the variables of the enclosing call it closes
    over. *)
Definition convert_file_body (ff : FileForge) (h : Host) (output_format : string)
    (total_files : nat) (results : list ConversionResult) (file_path : string)
  : M batch_state (option ConversionResult) :=
  try_except
    (result <- call_convert ff h file_path output_format ;;
     options <- gets bs_options ;;
     match bo_on_progress options with
     | Some on_progress =>
         call_on_progress on_progress (length results + 1)%nat total_files file_path
     | None => mret tt
     end ;;;
     mret (Some result))
    (fun e =>
       let error_msg := exn_str e in
       errors_append {| ee_file := file_path; ee_error := error_msg |} ;;;
       options <- gets bs_options ;;
       match bo_on_error options with
       | Some on_error => call_on_error on_error e file_path
       | None => mret tt
       end ;;;
       if negb (bo_continue_on_error options) then raise e
       else mret None).

(** [asyncio.Semaphore(value)] *)
Definition Semaphore (value : Z) : outcome Z :=
  if value <? 0 then Raise (MkExn ValueError "Semaphore initial value must be >= 0")
  else Ok value.

(** [async with semaphore: body].  A task that finds the counter at 0
    waits for a release; the tasks running one after the other, nobody
    is left to release and the task never returns ([None]). *)
Definition with_semaphore {A} (body : M batch_state A) (bs : batch_state)
  : option (outcome A * batch_state) :=
  if 0 <? bs_semaphore bs then
    match body (set_semaphore bs (bs_semaphore bs - 1)) with
    | (r, bs') => Some (r, set_semaphore bs' (bs_semaphore bs' + 1))
    end
  else None.

Definition convert_file (ff : FileForge) (h : Host) (output_format : string)
    (total_files : nat) (results : list ConversionResult) (file_path : string)
  : batch_state -> option (outcome (option ConversionResult) * batch_state) :=
  with_semaphore (convert_file_body ff h output_format total_files results file_path).

(** [await asyncio.gather( *tasks, return_exceptions=True)]: every task
    is run, what it returns or raises is put in the list at its
    position; [None] when a task never returns. *)
Fixpoint gather {A} (tasks : list (batch_state -> option (outcome A * batch_state)))
    (bs : batch_state) : option (list (outcome A) * batch_state) :=
  match tasks with
  | [] => Some ([], bs)
  | task :: rest =>
      match task bs with
      | None => None
      | Some (r, bs1) =>
          match gather rest bs1 with
          | None => None
          | Some (rs, bs2) => Some (r :: rs, bs2)
          end
      end
  end.

(** [isinstance(r, ConversionResult)] on an entry of the gathered list *)
Definition as_result (r : outcome (option ConversionResult))
  : option ConversionResult :=
  match r with
  | Ok (Some result) => Some result
  | Ok None => None
  | Raise _ => None
  end.

(** [[patterns] if isinstance(patterns, str) else patterns] *)
Definition patterns_list (patterns : Patterns) : list string :=
  match patterns with
  | OnePattern p => [p]
  | ManyPatterns ps => ps
  end.

(** [FileForge.convert_batch].  [None] when the call never returns;
    otherwise the outcome, the options object as the call leaves it, and
    the new state. *)
Definition convert_batch (ff : FileForge) (h : Host) (patterns : Patterns)
    (output_format : string) (options : option BatchConversionOptions) (s : state)
  : option (outcome BatchConversionResult * BatchConversionOptions * state) :=
  let start_time := clock h (st_world s) in
  let options := default BatchConversionOptions_default options in
  let patterns_list := patterns_list patterns in
  let files :=
    fold_left (fun files pattern => (files ++ glob_glob h pattern (st_world s))%list)
              patterns_list [] in
  let total_files := length files in
  let results : list ConversionResult := [] in
  match Semaphore (bo_max_concurrency options) with
  | Raise e => Some (Raise e, options, s)
  | Ok semaphore =>
      let tasks := map (convert_file ff h output_format total_files results) files in
      match gather tasks {| bs_state := s; bs_options := options;
                            bs_errors := []; bs_semaphore := semaphore |} with
      | None => None
      | Some (completed_results, bs) =>
          let errors := bs_errors bs in
          let results := omap as_result completed_results in
          Some (Ok {| br_total_files := total_files;
                      br_success_count := length (List.filter cr_success results);
                      br_error_count := length errors;
                      br_results := results;
                      br_errors := errors;
                      br_total_time := clock h (st_world (bs_state bs)) - start_time |},
                bs_options bs, bs_state bs)
      end
  end.

(** ** What the specification says of results and of detection *)

(** The invariant of [ConversionResult]: a failure has no data and at
    least one error; a success has data or an output path. *)
Definition shape_invariant (r : ConversionResult) : Prop :=
  (cr_success r = false -> cr_data r = None /\ cr_errors r <> []) /\
  (cr_success r = true -> is_Some (cr_data r) \/ is_Some (cr_output_path r)).

(** The number of glob matches, summed over the patterns. *)
Definition glob_matches (h : Host) (patterns : list string) (w : World) : nat :=
  sum_list (map (fun pattern => length (glob_glob h pattern w)) patterns).

(** The counts the progress callback was called with, in order. *)
Definition progress_counts (log : list event) : list nat :=
  omap (fun ev => match ev with
                  | EvProgress current _ _ => Some current
                  | EvError _ _ => None
                  end) log.

(** *** The detection order as the specification words it

    Three steps, the first match winning: the lowercased extension of
    the path hint when it is a registered format; the extension that the
    MIME type of the hint's extension (or of the placeholder name, when
    there is no hint) maps back to, when it is registered; the format
    matched from the buffer's signature. *)

(** A registered format: one that [is_format_supported] accepts with its
    default direction. *)
Definition registered (ff : FileForge) (format_name : string) : bool :=
  is_format_supported ff format_name DirInput.

(** The path hint, when one is given. *)
Definition given_hint (file_path : option string) : option string :=
  match file_path with
  | Some p => if str_truthy p then Some p else None
  | None => None
  end.

(** Step 1: the hint's lowercased extension, if it has one and it is
    registered. *)
Definition step_extension (ff : FileForge) (h : Host) (file_path : option string)
  : option string :=
  match given_hint file_path with
  | Some p =>
      let ext := lstrip_dot (str_lower h (path_suffix h p)) in
      if str_truthy ext then (if registered ff ext then Some ext else None)
      else None
  | None => None
  end.

(** The name whose MIME type is inferred: the placeholder with the
    hint's extension, or the bare placeholder. *)
Definition mime_probe (h : Host) (file_path : option string) : string :=
  match given_hint file_path with
  | Some p => "dummy" +:+ path_suffix h p
  | None => "dummy"
  end.

(** Step 2: the extension the inferred MIME type maps back to, if it is
    registered. *)
Definition step_mime (ff : FileForge) (h : Host) (file_path : option string)
  : option string :=
  match guess_type h (mime_probe h file_path) with
  | Some mime_type =>
      if str_truthy mime_type then
        match guess_extension h mime_type with
        | Some ext =>
            if str_truthy ext then
              (if registered ff (lstrip_dot ext) then Some (lstrip_dot ext) else None)
            else None
        | None => None
        end
      else None
  | None => None
  end.

Definition detect_spec (ff : FileForge) (h : Host) (buffer : bytes)
    (file_path : option string) : M state string :=
  match step_extension ff h file_path with
  | Some ext => mret ext
  | None =>
      match step_mime ff h file_path with
      | Some ext => mret ext
      | None => of_outcome (detect_format_by_signature h buffer)
      end
  end.

End Model.

(** ** A small host and registry to run the engine on *)

Module Demo.

(** The world is a file system: names with their contents. *)
Definition World : Type := list (string * bytes).

(** Metadata: the format and the size. *)
Definition Meta : Type := (string * nat)%type.

Definition Options : Type := @ConversionOptions unit.
Definition Forge : Type := @FileForge unit Meta World.

Fixpoint fs_lookup (p : string) (w : World) : option bytes :=
  match w with
  | [] => None
  | (n, b) :: rest => if String.eqb n p then Some b else fs_lookup p rest
  end.

Definition fs_read (p : string) : M World bytes :=
  fun w => match fs_lookup p w with
           | Some b => (Ok b, w)
           | None => (Raise (MkExn OSError ("No such file or directory: " +:+ p)), w)
           end.

Definition fs_write (p : string) (b : bytes) : M World unit :=
  fun w => (Ok tt, (p, b) :: w).

(** The part of a name from its last dot on. *)
Fixpoint suffix (s : string) : string :=
  match s with
  | EmptyString => ""
  | String c r =>
      if str_truthy (suffix r) then suffix r
      else if Ascii.eqb c "."%char then s else ""
  end.

(** The part of a name before its last dot. *)
Fixpoint stem (s : string) : string :=
  match s with
  | EmptyString => ""
  | String c r =>
      if str_truthy (suffix r) then String c (stem r)
      else if Ascii.eqb c "."%char then "" else String c (stem r)
  end.

(** Lowercase, for the letters of ASCII. *)
Definition ascii_lower (c : ascii) : ascii :=
  let n := nat_of_ascii c in
  if ((65 <=? n) && (n <=? 90))%nat then ascii_of_nat (n + 32) else c.

Fixpoint lower (s : string) : string :=
  match s with
  | EmptyString => ""
  | String c r => String (ascii_lower c) (lower r)
  end.

(** Names matching ["*" ext], or the name itself. *)
Definition glob (pattern : string) (w : World) : list string :=
  match pattern with
  | String "*"%char ext => List.filter (fun n => String.eqb (suffix n) ext) (map fst w)
  | _ => List.filter (String.eqb pattern) (map fst w)
  end.

(** Signature sniffing: [%PDF] at the start, or nothing known. *)
Definition sniff (buffer : bytes) : outcome string :=
  match buffer with
  | "%"%byte :: "P"%byte :: "D"%byte :: "F"%byte :: _ => Ok "pdf"
  | _ => Ok "unknown"
  end.

Definition host : @Host World := {|
  clock := fun w => Z.of_nat (length w);
  read_file := fs_read;
  mkdir_parents := fun _ => mret tt;
  write_file := fs_write;
  glob_glob := glob;
  path_suffix := suffix;
  path_parent := fun _ => ".";
  path_stem := stem;
  path_join := fun d n => d +:+ "/" +:+ n;
  str_lower := lower;
  guess_type := fun n =>
    if String.eqb (suffix n) ".txt" || String.eqb (suffix n) ".text"
    then Some "text/plain" else None;
  guess_extension := fun t => if String.eqb t "text/plain" then Some ".txt" else None;
  detect_format_by_signature := sniff
|}.

(** Reads [txt], writes [md]: reverses the bytes. *)
Definition reverser : @Plugin unit World := {|
  pl_name := "reverser";
  pl_version := "1.0.0";
  pl_input_formats := ["txt"];
  pl_output_formats := ["md"];
  pl_convert := fun b _ => mret (OutBytes (rev b))
|}.

(** Reads [md], writes [txt]: hands back a [str]. *)
Definition plain : @Plugin unit World := {|
  pl_name := "plain";
  pl_version := "1.0.0";
  pl_input_formats := ["md"];
  pl_output_formats := ["txt"];
  pl_convert := fun _ _ => mret (OutStr "plain text")
|}.

(** Reads [pdf], writes [txt]; it always fails. *)
Definition pdf_text : @Plugin unit World := {|
  pl_name := "pdf-text";
  pl_version := "0.1.0";
  pl_input_formats := ["pdf"];
  pl_output_formats := ["txt"];
  pl_convert := fun _ _ => raise (MkExn NotImplementedError "")
|}.

Definition extract_ok (b : bytes) (f : string) (_ : option string) : M World Meta :=
  mret (f, length b).

Definition extract_failing (_ : bytes) (_ : string) (_ : option string) : M World Meta :=
  raise (MkExn OtherException "metadata unavailable").

(** [txt] is read but not written. *)
Definition forge : Forge :=
  {| plugin_manager := [reverser]; metadata_extractor := extract_ok |}.

(** [txt] and [md] are both read and written. *)
Definition forge2 : Forge :=
  {| plugin_manager := [reverser; plain]; metadata_extractor := extract_ok |}.

(** [pdf] is read and [md] is written, but not by the same plug-in. *)
Definition forge3 : Forge :=
  {| plugin_manager := [reverser; pdf_text]; metadata_extractor := extract_ok |}.

(** As [forge], with an extractor that raises. *)
Definition forge_bad_metadata : Forge :=
  {| plugin_manager := [reverser]; metadata_extractor := extract_failing |}.

Definition hello : bytes := list_byte_of_string "hello".

Definition disk : World :=
  [("a.txt", hello); ("b.txt", list_byte_of_string "bye"); ("NOTES.TXT", hello)].

Definition start : @state World := {| st_world := disk; st_log := [] |}.

Definition defaults : Options := ConversionOptions_default.

Definition set_compression (o : Options) (c : CompressionLevel) : Options := {|
  co_output_format := co_output_format o;
  co_output_dir := co_output_dir o;
  co_output_name := co_output_name o;
  co_compression := c;
  co_quality := co_quality o;
  co_ocr := co_ocr o;
  co_ocr_language := co_ocr_language o;
  co_metadata := co_metadata o;
  co_streaming := co_streaming o;
  co_buffer_size := co_buffer_size o;
  co_format_options := co_format_options o;
  co_ai := co_ai o;
  co_tts := co_tts o;
  co_image := co_image o;
  co_video := co_video o;
  co_audio := co_audio o;
  co_debug := co_debug o;
  co_plugin := co_plugin o
|}.

Definition set_metadata (o : Options) (m : bool) : Options := {|
  co_output_format := co_output_format o;
  co_output_dir := co_output_dir o;
  co_output_name := co_output_name o;
  co_compression := co_compression o;
  co_quality := co_quality o;
  co_ocr := co_ocr o;
  co_ocr_language := co_ocr_language o;
  co_metadata := m;
  co_streaming := co_streaming o;
  co_buffer_size := co_buffer_size o;
  co_format_options := co_format_options o;
  co_ai := co_ai o;
  co_tts := co_tts o;
  co_image := co_image o;
  co_video := co_video o;
  co_audio := co_audio o;
  co_debug := co_debug o;
  co_plugin := co_plugin o
|}.

Definition set_output_dir (o : Options) (d : option string) : Options := {|
  co_output_format := co_output_format o;
  co_output_dir := d;
  co_output_name := co_output_name o;
  co_compression := co_compression o;
  co_quality := co_quality o;
  co_ocr := co_ocr o;
  co_ocr_language := co_ocr_language o;
  co_metadata := co_metadata o;
  co_streaming := co_streaming o;
  co_buffer_size := co_buffer_size o;
  co_format_options := co_format_options o;
  co_ai := co_ai o;
  co_tts := co_tts o;
  co_image := co_image o;
  co_video := co_video o;
  co_audio := co_audio o;
  co_debug := co_debug o;
  co_plugin := co_plugin o
|}.

Definition pdf_bytes : bytes := list_byte_of_string "%PDF-1.7".

(** No compression, nothing else asked for. *)
Definition uncompressed : Options := set_compression defaults NONE.

(** Metadata asked for. *)
Definition with_metadata : Options := set_metadata defaults true.

(** A progress callback that raises on [b.txt]. *)
Definition progress_failing (current total : nat) (file_path : string) : M World unit :=
  if String.eqb file_path "b.txt" then raise (MkExn OtherException "progress failed")
  else mret tt.

Definition quiet (current total : nat) (file_path : string) : M World unit := mret tt.

Definition on_error_quiet (e : Exn) (file_path : string) : M World unit := mret tt.

Definition batch_options (max_concurrency : Z) (continue_on_error : bool)
    (on_progress : option (nat -> nat -> string -> M World unit))
  : @BatchConversionOptions unit World := {|
  bo_base := defaults;
  bo_patterns := [];
  bo_max_concurrency := max_concurrency;
  bo_continue_on_error := continue_on_error;
  bo_on_progress := on_progress;
  bo_on_error := Some on_error_quiet
|}.

End Demo.

(** * Further observations on the engine *)

Section Observations.

Context {PyAny MetadataResult World : Type}.

(** The host with other disk-writing operations: [mkdir] and the
    writing [open] are replaced, everything else is kept. *)
Definition with_disk (h : @Host World) (mk : string -> M World unit)
    (wr : string -> bytes -> M World unit) : @Host World := {|
  clock := clock h;
  read_file := read_file h;
  mkdir_parents := mk;
  write_file := wr;
  glob_glob := glob_glob h;
  path_suffix := path_suffix h;
  path_parent := path_parent h;
  path_stem := path_stem h;
  path_join := path_join h;
  str_lower := str_lower h;
  guess_type := guess_type h;
  guess_extension := guess_extension h;
  detect_format_by_signature := detect_format_by_signature h
|}.

(** types.py, [Plugin.convert] of the base class: [raise
    NotImplementedError], an exception without message. *)
Definition Plugin_convert (input_data : bytes) (options : @ConversionOptions PyAny)
  : M World (@PluginOutput) :=
  raise (MkExn NotImplementedError "").

(** [options.continue_on_error = v] *)
Definition set_continue_on_error (o : @BatchConversionOptions PyAny World) (v : bool)
  : @BatchConversionOptions PyAny World := {|
  bo_base := bo_base o;
  bo_patterns := bo_patterns o;
  bo_max_concurrency := bo_max_concurrency o;
  bo_continue_on_error := v;
  bo_on_progress := bo_on_progress o;
  bo_on_error := bo_on_error o
|}.

(** The files a batch works on: the matches of each pattern, one
    pattern after the other. *)
Definition matched_files (h : @Host World) (patterns : Patterns) (w : World)
  : list string :=
  concat (map (fun pattern => glob_glob h pattern w) (patterns_list patterns)).

End Observations.

(** The [(total, file_path)] arguments of the calls of the progress
    callback, in order. *)
Definition progress_args (log : list event) : list (nat * string) :=
  omap (fun ev => match ev with
                  | EvProgress _ total file_path => Some (total, file_path)
                  | EvError _ _ => None
                  end) log.

(** The calls of the error callback, in order, as [errors] entries. *)
Definition error_calls (log : list event) : list ErrorEntry :=
  omap (fun ev => match ev with
                  | EvProgress _ _ _ => None
                  | EvError e file_path =>
                      Some {| ee_file := file_path; ee_error := exn_str e |}
                  end) log.

(** ** More of the small host *)

Module Demo2.


(** The small host on a disk that refuses every write. *)
Definition readonly : @Host Demo.World :=
  with_disk Demo.host (fun _ => mret tt)
            (fun _ _ => raise (MkExn OSError "Read-only file system")).

(** Conversion into the directory [out]. *)
Definition into_out : Demo.Options := Demo.set_output_dir Demo.defaults (Some "out").

(** An extractor that works only when it is given no path. *)
Definition extract_pathless (b : bytes) (f : string) (path : option string)
  : M Demo.World Demo.Meta :=
  match path with
  | None => Demo.extract_ok b f None
  | Some _ => raise (MkExn OtherException "no path expected")
  end.

End Demo2.

(** ** The failures a conversion is expected to meet *)

Section Failures.

Context {PyAny MetadataResult World : Type}.

Implicit Types (ff : @FileForge PyAny MetadataResult World) (h : @Host World).

(** The steps of the [try] block of [convert] at which a conversion of
    bytes or of a path can fail, each with the exception that is raised
    there and the state the step leaves: reading the file, detecting its
    format, the two checks against the registry, the search for a
    plug-in, the plug-in itself, writing the output.  [options] is the
    options object the pipeline works with. *)
Inductive expected_failure ff h (input_data : InputData) (output_format : string)
    (options : @ConversionOptions PyAny) (s : @state World)
  : Exn -> @state World -> Prop :=
  (* [open(file_path, 'rb')] or [f.read()] raises *)
  | read_failure file_path e w :
      input_data = InPath file_path ->
      read_file h file_path (st_world s) = (Raise e, w) ->
      expected_failure ff h input_data output_format options s
        e {| st_world := w; st_log := st_log s |}
  (* [FileUtils.detect_format_by_signature] raises *)
  | unknown_format buffer path s1 e s2 :
      _prepare_input h input_data s = (Ok (buffer, path), s1) ->
      _detect_format ff h buffer path s1 = (Raise e, s2) ->
      expected_failure ff h input_data output_format options s e s2
  (* [not self.is_format_supported(original_format, 'input')] *)
  | unsupported_input_format buffer path s1 f s2 :
      _prepare_input h input_data s = (Ok (buffer, path), s1) ->
      _detect_format ff h buffer path s1 = (Ok f, s2) ->
      is_format_supported ff f DirInput = false ->
      expected_failure ff h input_data output_format options s
        (MkExn ValueError ("Formato de entrada não suportado: " +:+ f)) s2
  (* [not self.is_format_supported(output_format, 'output')] *)
  | unsupported_output_format buffer path s1 f s2 :
      _prepare_input h input_data s = (Ok (buffer, path), s1) ->
      _detect_format ff h buffer path s1 = (Ok f, s2) ->
      is_format_supported ff f DirInput = true ->
      is_format_supported ff output_format DirOutput = false ->
      expected_failure ff h input_data output_format options s
        (MkExn ValueError ("Formato de saída não suportado: " +:+ output_format)) s2
  (* [not plugin] in [_execute_conversion] *)
  | no_matching_plugin buffer path s1 f s2 metadata s3 :
      _prepare_input h input_data s = (Ok (buffer, path), s1) ->
      _detect_format ff h buffer path s1 = (Ok f, s2) ->
      is_format_supported ff f DirInput = true ->
      is_format_supported ff output_format DirOutput = true ->
      (if co_metadata options
       then mbind (extract_metadata ff h (InBytes buffer) (Some f))
                  (fun m => mret (Some m))
       else mret None) s2 = (Ok metadata, s3) ->
      String.eqb f output_format = false ->
      find_plugin ff f output_format = None ->
      expected_failure ff h input_data output_format options s
        (MkExn ValueError
           ("Conversão não suportada: " +:+ f +:+ " → " +:+ output_format)) s3
  (* [plugin.convert] raises in [_execute_conversion] *)
  | plugin_failure buffer path s1 f s2 metadata s3 plugin e w :
      _prepare_input h input_data s = (Ok (buffer, path), s1) ->
      _detect_format ff h buffer path s1 = (Ok f, s2) ->
      is_format_supported ff f DirInput = true ->
      is_format_supported ff output_format DirOutput = true ->
      (if co_metadata options
       then mbind (extract_metadata ff h (InBytes buffer) (Some f))
                  (fun m => mret (Some m))
       else mret None) s2 = (Ok metadata, s3) ->
      String.eqb f output_format = false ->
      find_plugin ff f output_format = Some plugin ->
      pl_convert plugin buffer options (st_world s3) = (Raise e, w) ->
      expected_failure ff h input_data output_format options s
        e {| st_world := w; st_log := st_log s3 |}
  (* [plugin.convert] raises in [_optimize_file] *)
  | optimizer_failure buffer path s1 s2 metadata s3 plugin e w :
      _prepare_input h input_data s = (Ok (buffer, path), s1) ->
      _detect_format ff h buffer path s1 = (Ok output_format, s2) ->
      is_format_supported ff output_format DirInput = true ->
      is_format_supported ff output_format DirOutput = true ->
      (if co_metadata options
       then mbind (extract_metadata ff h (InBytes buffer) (Some output_format))
                  (fun m => mret (Some m))
       else mret None) s2 = (Ok metadata, s3) ->
      String.eqb (CompressionLevel_value (co_compression options)) "none" = false ->
      find_plugin ff output_format output_format = Some plugin ->
      pl_convert plugin buffer options (st_world s3) = (Raise e, w) ->
      expected_failure ff h input_data output_format options s
        e {| st_world := w; st_log := st_log s3 |}
  (* [mkdir], [open(output_path, 'wb')] or [f.write] raises *)
  | write_failure buffer path s1 f s2 metadata s3 data s4 e s5 :
      _prepare_input h input_data s = (Ok (buffer, path), s1) ->
      _detect_format ff h buffer path s1 = (Ok f, s2) ->
      is_format_supported ff f DirInput = true ->
      is_format_supported ff output_format DirOutput = true ->
      (if co_metadata options
       then mbind (extract_metadata ff h (InBytes buffer) (Some f))
                  (fun m => mret (Some m))
       else mret None) s2 = (Ok metadata, s3) ->
      _execute_conversion ff buffer f output_format options s3 = (Ok data, s4) ->
      truthy (co_output_dir options) || truthy (co_output_name options) = true ->
      _save_output h data output_format options path s4 = (Raise e, s5) ->
      expected_failure ff h input_data output_format options s e s5.

End Failures.

(** ** The options object as a shared object *)

Section SharedOptions.

Context {PyAny MetadataResult World : Type}.

(** [convert] and the plug-in it calls hold the same options object:
    what either writes, the other and the caller see.  Here the object
    is a cell of the world, next to everything else a plug-in can
    reach. *)
Record Shared := {
  sh_options : @ConversionOptions PyAny;
  sh_world : World
}.

(** A call that is not handed the object: it acts on the rest. *)
Definition beside {A} (c : M World A) : M Shared A :=
  fun sh => match c (sh_world sh) with
            | (r, w) => (r, {| sh_options := sh_options sh; sh_world := w |})
            end.

(** The services of the host never see the options object. *)
Definition shared_host (h : @Host World) : @Host Shared := {|
  clock := fun sh => clock h (sh_world sh);
  read_file := fun p => beside (read_file h p);
  mkdir_parents := fun p => beside (mkdir_parents h p);
  write_file := fun p data => beside (write_file h p data);
  glob_glob := fun pattern sh => glob_glob h pattern (sh_world sh);
  path_suffix := path_suffix h;
  path_parent := path_parent h;
  path_stem := path_stem h;
  path_join := path_join h;
  str_lower := str_lower h;
  guess_type := guess_type h;
  guess_extension := guess_extension h;
  detect_format_by_signature := detect_format_by_signature h
|}.

(** An engine whose plug-ins can reach the options object; the metadata
    extractor is called with the buffer, the format and the path only. *)
Definition shared_forge (plugins : list (@Plugin PyAny Shared))
    (extract : bytes -> string -> option string -> M World MetadataResult)
  : @FileForge PyAny MetadataResult Shared := {|
  plugin_manager := plugins;
  metadata_extractor := fun buffer f path => beside (extract buffer f path)
|}.

(** A plug-in of the other kind, which only reads the options it is
    passed, seen as one that could write them. *)
Definition reading_only (p : @Plugin PyAny World) : @Plugin PyAny Shared := {|
  pl_name := pl_name p;
  pl_version := pl_version p;
  pl_input_formats := pl_input_formats p;
  pl_output_formats := pl_output_formats p;
  pl_convert := fun data options => beside (pl_convert p data options)
|}.

(** A read of the object: [options.<field>] sees its current content. *)
Definition the_options : M (@state Shared) (@ConversionOptions PyAny) :=
  gets (fun s => sh_options (st_world s)).

(** [options.output_format = v] *)
Definition assign_output_format (v : option string) : M (@state Shared) unit :=
  modify (fun s => {| st_world := {| sh_options := set_output_format
                                                     (sh_options (st_world s)) v;
                                     sh_world := sh_world (st_world s) |};
                      st_log := st_log s |}).

(** The [try] block of [convert], reading the options object where the
    code does: for the metadata flag, when it is handed to
    [_execute_conversion], and for the persistence step. *)
Definition convert_try_shared (ff : @FileForge PyAny MetadataResult Shared)
    (h : @Host Shared) (input_data : InputData) (output_format : string)
    (start_time : Z) : M (@state Shared) (@ConversionResult MetadataResult) :=
  prepared <- _prepare_input h input_data ;;
  let input_buffer := fst prepared in
  let input_path := snd prepared in
  original_format <- _detect_format ff h input_buffer input_path ;;
  if negb (is_format_supported ff original_format DirInput) then
    raise (MkExn ValueError ("Formato de entrada não suportado: " +:+ original_format))
  else if negb (is_format_supported ff output_format DirOutput) then
    raise (MkExn ValueError ("Formato de saída não suportado: " +:+ output_format))
  else
    options <- the_options ;;
    metadata <-
      (if co_metadata options then
         m <- extract_metadata ff h (InBytes input_buffer) (Some original_format) ;;
         mret (Some m)
       else mret None) ;;
    options <- the_options ;;
    output_data <- _execute_conversion ff input_buffer original_format
                     output_format options ;;
    end_time <- now h ;;
    let result := {|
      cr_success := true;
      cr_original_format := original_format;
      cr_output_format := output_format;
      cr_original_size := length input_buffer;
      cr_processing_time := end_time - start_time;
      cr_output_path := None;
      cr_data := Some output_data;
      cr_output_size := Some (length output_data);
      cr_metadata := metadata;
      cr_errors := [];
      cr_warnings := []
    |} in
    options <- the_options ;;
    if truthy (co_output_dir options) || truthy (co_output_name options) then
      output_path <- _save_output h output_data output_format options input_path ;;
      mret (set_output_path result (Some output_path))
    else mret result.

(** [FileForge.convert] called with the caller's options object, which
    is the cell of the state the call starts in; the state the call
    ends in holds the object as the caller finds it afterwards. *)
Definition convert_shared (ff : @FileForge PyAny MetadataResult Shared)
    (h : @Host Shared) (input_data : InputData) (output_format : string)
  : M (@state Shared) (@ConversionResult MetadataResult) :=
  fun s =>
    let start_time := clock h (st_world s) in
    (assign_output_format (Some output_format) ;;;
     try_except (convert_try_shared ff h input_data output_format start_time)
                (convert_except h output_format start_time)) s.

(** A call that leaves the options object as it found it. *)
Definition leaves_options {A} (c : M Shared A) : Prop :=
  forall sh, sh_options (snd (c sh)) = sh_options sh.

(** The state of the shared model that holds the object [o] next to
    the state [s] of the other. *)
Definition sharing (o : @ConversionOptions PyAny) (s : @state World) : @state Shared :=
  {| st_world := {| sh_options := o; sh_world := st_world s |}; st_log := st_log s |}.

End SharedOptions.

(** ** The small host with a shared options object *)

Module Demo3.

Definition Cell : Type := @Shared unit Demo.World.

(** [options.quality = q] *)
Definition set_quality (o : Demo.Options) (q : Z) : Demo.Options := {|
  co_output_format := co_output_format o;
  co_output_dir := co_output_dir o;
  co_output_name := co_output_name o;
  co_compression := co_compression o;
  co_quality := q;
  co_ocr := co_ocr o;
  co_ocr_language := co_ocr_language o;
  co_metadata := co_metadata o;
  co_streaming := co_streaming o;
  co_buffer_size := co_buffer_size o;
  co_format_options := co_format_options o;
  co_ai := co_ai o;
  co_tts := co_tts o;
  co_image := co_image o;
  co_video := co_video o;
  co_audio := co_audio o;
  co_debug := co_debug o;
  co_plugin := co_plugin o
|}.

(** Reads [txt], writes [md]; it hands the bytes back and, on its way,
    sets [options.quality] to 100. *)
Definition scribbler : @Plugin unit Cell := {|
  pl_name := "scribbler";
  pl_version := "1.0.0";
  pl_input_formats := ["txt"];
  pl_output_formats := ["md"];
  pl_convert := fun data _ sh =>
    (Ok (OutBytes data),
     {| sh_options := set_quality (sh_options sh) 100; sh_world := sh_world sh |})
|}.

(** The small disk with the caller's options object next to it. *)
Definition start (o : Demo.Options) : @state Cell := sharing o Demo.start.

End Demo3.

(** * Properties of the engine *)

Section Properties.

Context {PyAny MetadataResult World : Type}.

Implicit Types (ff : @FileForge PyAny MetadataResult World) (h : @Host World).
Implicit Types (s : @state World) (o : @ConversionOptions PyAny).
Implicit Types (r : @ConversionResult MetadataResult).

(** ** Single conversions *)

(** The [except] branch returns, with the failure record. *)
Lemma convert_except_run h fmt t0 e s :
  exists r, convert_except (MetadataResult:=MetadataResult) h fmt t0 e s = (Ok r, s) /\
    cr_success r = false /\ cr_data r = None /\ cr_output_path r = None /\
    cr_errors r = [exn_str e] /\ cr_warnings r = [] /\ cr_output_format r = fmt.
Proof. eexists. split; [reflexivity|]. cbn. auto 10. Qed.

(** What the [try] block returns when it does not raise. *)
Lemma convert_try_ok ff h input fmt o t0 s r s' :
  convert_try ff h input fmt o t0 s = (Ok r, s') ->
  cr_success r = true /\ is_Some (cr_data r) /\ cr_errors r = [] /\
  cr_warnings r = [] /\ cr_output_format r = fmt.
Proof.
  unfold convert_try, mbind, raise, mret, now, gets.
  intros H.
  repeat case_match; simplify_eq; cbn; eauto 10.
Qed.

(** [convert] is its [try] block, with the [except] branch on a raise. *)
Lemma convert_run ff h input fmt opts s :
  convert ff h input fmt opts s =
  let o := set_output_format (default ConversionOptions_default opts) (Some fmt) in
  let t0 := clock h (st_world s) in
  match convert_try ff h input fmt o t0 s with
  | (Ok r, s') => (Ok r, o, s')
  | (Raise e, s') =>
      match convert_except h fmt t0 e s' with
      | (r, s'') => (r, o, s'')
      end
  end.
Proof.
  unfold convert, try_except. cbn.
  destruct (convert_try _ _ _ _ _ _ _) as [[r|e] s']; reflexivity.
Qed.

(** [convert] always returns a result and leaves the options object
    with the requested output format written into it. *)
Lemma convert_total ff h input fmt opts s :
  exists r s',
    convert ff h input fmt opts s =
    (Ok r, set_output_format (default ConversionOptions_default opts) (Some fmt), s').
Proof.
  rewrite convert_run. cbv zeta.
  destruct (convert_try _ _ _ _ _ _ _) as [[r|e] s']; [by eauto|].
  destruct (convert_except_run h fmt (clock h (st_world s)) e s')
    as (r & -> & _). eauto.
Qed.

(** [convert] never raises: what its [try] block returns is returned
    as it is, and an exception [e] of the block becomes a result with
    [success = False] whose [errors] list is [[str(e)]]. *)
Lemma convert_captures_failures ff h input fmt opts s :
  exists r o s',
    convert ff h input fmt opts s = (Ok r, o, s') /\
    match convert_try ff h input fmt o (clock h (st_world s)) s with
    | (Ok r0, s0) => r = r0 /\ s' = s0
    | (Raise e, s0) => cr_success r = false /\ cr_errors r = [exn_str e] /\ s' = s0
    end.
Proof.
  rewrite convert_run. cbv zeta.
  destruct (convert_try _ _ _ _ _ _ _) as [[r|e] s0] eqn:E.
  - exists r. do 2 eexists. split; [reflexivity|]. rewrite E. done.
  - destruct (convert_except_run h fmt (clock h (st_world s)) e s0)
      as (r & -> & Hs & _ & _ & He & _).
    exists r. do 2 eexists. split; [reflexivity|]. rewrite E. done.
Qed.

(** The failures the pipeline raises, one lemma per class. *)

Lemma pipeline_input_type_error ff h fmt o t0 s :
  convert_try ff h InOther fmt o t0 s =
  (Raise (MkExn ValueError "Tipo de entrada não suportado"), s).
Proof. reflexivity. Qed.

Lemma pipeline_read_error ff h p fmt o t0 s e w :
  read_file h p (st_world s) = (Raise e, w) ->
  convert_try ff h (InPath p) fmt o t0 s =
  (Raise e, {| st_world := w; st_log := st_log s |}).
Proof.
  intros H. unfold convert_try, mbind, _prepare_input, mbind, lift. by rewrite H.
Qed.

Lemma pipeline_detection_error ff h input fmt o t0 s buffer path s1 e s2 :
  _prepare_input h input s = (Ok (buffer, path), s1) ->
  _detect_format ff h buffer path s1 = (Raise e, s2) ->
  convert_try ff h input fmt o t0 s = (Raise e, s2).
Proof.
  intros H1 H2. unfold convert_try, mbind. rewrite H1. cbn. by rewrite H2.
Qed.

Lemma pipeline_unsupported_input ff h input fmt o t0 s buffer path s1 f s2 :
  _prepare_input h input s = (Ok (buffer, path), s1) ->
  _detect_format ff h buffer path s1 = (Ok f, s2) ->
  is_format_supported ff f DirInput = false ->
  convert_try ff h input fmt o t0 s =
  (Raise (MkExn ValueError ("Formato de entrada não suportado: " +:+ f)), s2).
Proof.
  intros H1 H2 H3. unfold convert_try, mbind. rewrite H1. cbn. rewrite H2, H3.
  reflexivity.
Qed.

Lemma pipeline_unsupported_output ff h input fmt o t0 s buffer path s1 f s2 :
  _prepare_input h input s = (Ok (buffer, path), s1) ->
  _detect_format ff h buffer path s1 = (Ok f, s2) ->
  is_format_supported ff f DirInput = true ->
  is_format_supported ff fmt DirOutput = false ->
  convert_try ff h input fmt o t0 s =
  (Raise (MkExn ValueError ("Formato de saída não suportado: " +:+ fmt)), s2).
Proof.
  intros H1 H2 H3 H4. unfold convert_try, mbind. rewrite H1. cbn.
  rewrite H2, H3, H4. reflexivity.
Qed.

Lemma execute_no_plugin ff buffer f fmt o s :
  String.eqb f fmt = false ->
  find_plugin ff f fmt = None ->
  _execute_conversion ff buffer f fmt o s =
  (Raise (MkExn ValueError ("Conversão não suportada: " +:+ f +:+ " → " +:+ fmt)), s).
Proof. intros H1 H2. unfold _execute_conversion. rewrite H1, H2. reflexivity. Qed.

Lemma execute_plugin_error ff buffer f fmt o s p e w :
  String.eqb f fmt = false ->
  find_plugin ff f fmt = Some p ->
  pl_convert p buffer o (st_world s) = (Raise e, w) ->
  _execute_conversion ff buffer f fmt o s =
  (Raise e, {| st_world := w; st_log := st_log s |}).
Proof.
  intros H1 H2 H3. unfold _execute_conversion, mbind, lift. rewrite H1, H2, H3.
  reflexivity.
Qed.

(** C2. Every result [convert] returns has the shape the data model
    asks for: a failure carries no data and a non-empty [errors] list,
    a success carries data (or an output path). *)
Theorem convert_result_shape ff h input fmt opts s :
  exists r o s',
    convert ff h input fmt opts s = (Ok r, o, s') /\ shape_invariant r.
Proof.
  rewrite convert_run. cbv zeta.
  destruct (convert_try _ _ _ _ _ _ _) as [[r|e] s0] eqn:E.
  - apply convert_try_ok in E as (Hs & Hd & _).
    exists r. do 2 eexists. split; [reflexivity|].
    split; [congruence | by left].
  - destruct (convert_except_run h fmt (clock h (st_world s)) e s0)
      as (r & -> & Hs & Hd & _ & He & _).
    exists r. do 2 eexists. split; [reflexivity|].
    split; [intros _; by rewrite Hd, He | congruence].
Qed.

(** No plug-in declares the format as output: [is_format_supported]
    answers no. *)
Lemma not_declared_output ff fmt :
  (forall p, In p (plugin_manager ff) -> str_in fmt (pl_output_formats p) = false) ->
  is_format_supported ff fmt DirOutput = false.
Proof.
  intros H. unfold is_format_supported.
  apply not_true_is_false. intros Hex.
  apply existsb_exists in Hex as (p & Hp & Hin).
  rewrite (H p Hp) in Hin. discriminate.
Qed.

(** C5. If the input's format is detected and supported as input, and
    no registered plug-in declares the requested output format among
    its outputs, then [convert] returns (it does not raise) a result
    with [success = False] whose [errors] hold the unsupported-output
    message naming the format. *)
Theorem unsupported_output_format_reported
    ff h input fmt opts s buffer path s1 f s2 :
  _prepare_input h input s = (Ok (buffer, path), s1) ->
  _detect_format ff h buffer path s1 = (Ok f, s2) ->
  is_format_supported ff f DirInput = true ->
  (forall p, In p (plugin_manager ff) -> str_in fmt (pl_output_formats p) = false) ->
  exists r o,
    convert ff h input fmt opts s = (Ok r, o, s2) /\
    cr_success r = false /\
    cr_data r = None /\
    cr_errors r = ["Formato de saída não suportado: " +:+ fmt].
Proof.
  intros H1 H2 H3 H4. apply not_declared_output in H4.
  rewrite convert_run. cbv zeta.
  rewrite (pipeline_unsupported_output _ _ _ _ _ _ _ _ _ _ _ _ H1 H2 H3 H4).
  cbn. do 2 eexists. split; [reflexivity|]. cbn. done.
Qed.

(** ** Detection *)

(** The code and the specification's wording compute the same. *)
Lemma detect_format_unfold ff h buffer file_path s :
  _detect_format ff h buffer file_path s = detect_spec ff h buffer file_path s.
Proof.
  unfold _detect_format, detect_spec, step_extension, step_mime, mime_probe,
    given_hint, registered, truthy.
  destruct file_path as [p|]; cbn; [destruct (str_truthy p); cbn|].
  1: destruct (str_truthy (lstrip_dot (str_lower h (path_suffix h p)))); cbn.
  1: destruct (is_format_supported ff _ DirInput); [reflexivity|].
  all: destruct (guess_type h _) as [m|]; [|reflexivity]; cbn.
  all: destruct (str_truthy m); [|reflexivity].
  all: destruct (guess_extension h m) as [e|]; [|reflexivity]; cbn.
  all: destruct (str_truthy e); [|reflexivity].
  all: destruct (is_format_supported ff _ DirInput); reflexivity.
Qed.

(** Detection returns in the state it was called in, with a token that
    does not depend on that state. *)
Lemma detect_format_pure ff h buffer file_path s :
  exists x, forall s0, _detect_format ff h buffer file_path s0 = (x, s0).
Proof.
  exists (fst (detect_spec ff h buffer file_path s)). intros s0.
  rewrite detect_format_unfold. unfold detect_spec, mret, of_outcome.
  destruct (step_extension ff h file_path); [done|].
  destruct (step_mime ff h file_path); done.
Qed.

(** C6. Detection follows the three steps of the specification in
    order, the first match winning: the hint's lowercased extension if
    registered, else the extension the inferred MIME type maps back to
    if registered, else the signature of the buffer.  It reads neither
    the world nor the log and leaves the state as it is, so the same
    buffer and hint give the same token whatever the state. *)
Theorem detect_format_priority ff h buffer file_path s :
  _detect_format ff h buffer file_path s = detect_spec ff h buffer file_path s /\
  forall s', fst (_detect_format ff h buffer file_path s') =
             fst (_detect_format ff h buffer file_path s) /\
             snd (_detect_format ff h buffer file_path s') = s'.
Proof.
  split; [apply detect_format_unfold|].
  destruct (detect_format_pure ff h buffer file_path s) as (x & Hx).
  intros s'. by rewrite !Hx.
Qed.

(** The three steps, one by one. *)

Lemma detect_by_extension ff h buffer file_path s ext :
  step_extension ff h file_path = Some ext ->
  _detect_format ff h buffer file_path s = (Ok ext, s).
Proof.
  intros H. rewrite detect_format_unfold. unfold detect_spec. by rewrite H.
Qed.

Lemma detect_by_mime ff h buffer file_path s ext :
  step_extension ff h file_path = None ->
  step_mime ff h file_path = Some ext ->
  _detect_format ff h buffer file_path s = (Ok ext, s).
Proof.
  intros H1 H2. rewrite detect_format_unfold. unfold detect_spec. by rewrite H1, H2.
Qed.

Lemma detect_by_signature ff h buffer file_path s :
  step_extension ff h file_path = None ->
  step_mime ff h file_path = None ->
  _detect_format ff h buffer file_path s = (detect_format_by_signature h buffer, s).
Proof.
  intros H1 H2. rewrite detect_format_unfold. unfold detect_spec. by rewrite H1, H2.
Qed.

(** ** Same-format conversion and metadata *)

Lemma execute_same_format_uncompressed ff buffer fmt o s :
  co_compression o = NONE ->
  _execute_conversion ff buffer fmt fmt o s = (Ok buffer, s).
Proof.
  intros Hc. unfold _execute_conversion, _optimize_file.
  rewrite String.eqb_refl, Hc. reflexivity.
Qed.

(** C4, as the code has it.  When the detected format equals the
    requested one, is declared both as an input and as an output by
    registered plug-ins, the compression level is "none", and the
    metadata and persistence steps, where asked for, do not fail, then
    [convert] succeeds and its data are the input bytes. *)
Theorem same_format_uncompressed_identity
    ff h input fmt o s buffer path s1 s2 s3 :
  _prepare_input h input s = (Ok (buffer, path), s1) ->
  _detect_format ff h buffer path s1 = (Ok fmt, s2) ->
  is_format_supported ff fmt DirInput = true ->
  is_format_supported ff fmt DirOutput = true ->
  co_compression o = NONE ->
  (if co_metadata o
   then exists m, extract_metadata ff h (InBytes buffer) (Some fmt) s2 = (Ok m, s3)
   else s3 = s2) ->
  (if truthy (co_output_dir o) || truthy (co_output_name o)
   then exists p s4,
          _save_output h buffer fmt (set_output_format o (Some fmt)) path s3 = (Ok p, s4)
   else True) ->
  exists r o' s',
    convert ff h input fmt (Some o) s = (Ok r, o', s') /\
    cr_success r = true /\ cr_data r = Some buffer.
Proof.
  intros H1 H2 H3 H4 Hc Hm Hp.
  rewrite convert_run. cbv zeta.
  unfold convert_try, mbind. rewrite H1. cbn [fst snd].
  rewrite H2, H3, H4. cbn [negb co_metadata set_output_format default from_option id].
  assert (Hd : co_output_dir (set_output_format o (Some fmt)) = co_output_dir o)
    by reflexivity.
  assert (Hn : co_output_name (set_output_format o (Some fmt)) = co_output_name o)
    by reflexivity.
  rewrite Hd, Hn. clear Hd Hn.
  destruct (co_metadata o).
  - destruct Hm as (m & Hm). rewrite Hm. cbn [mret].
    rewrite execute_same_format_uncompressed by exact Hc.
    cbn [now gets].
    destruct (truthy (co_output_dir o) || truthy (co_output_name o)).
    + destruct Hp as (p & s4 & Hp). rewrite Hp. cbn. eauto 10.
    + cbn. eauto 10.
  - subst s3. cbn [mret].
    rewrite execute_same_format_uncompressed by exact Hc.
    cbn [now gets].
    destruct (truthy (co_output_dir o) || truthy (co_output_name o)).
    + destruct Hp as (p & s4 & Hp). rewrite Hp. cbn. eauto 10.
    + cbn. eauto 10.
Qed.

(** [convert] never writes to [warnings]. *)
Lemma convert_warnings_empty ff h input fmt opts s :
  exists r o s',
    convert ff h input fmt opts s = (Ok r, o, s') /\ cr_warnings r = [].
Proof.
  rewrite convert_run. cbv zeta.
  destruct (convert_try _ _ _ _ _ _ _) as [[r|e] s0] eqn:E.
  - apply convert_try_ok in E as (_ & _ & _ & Hw & _). eauto 10.
  - destruct (convert_except_run h fmt (clock h (st_world s)) e s0)
      as (r & -> & _ & _ & _ & _ & Hw & _). eauto 10.
Qed.

(** C8, as the code has it.  When [options.metadata] is set and the
    extraction of metadata raises for an input that passed the format
    checks, [convert] returns a failure: [success = False], the
    message of the exception as the only entry of [errors], and an
    empty [warnings] list. *)
Theorem metadata_failure_fails_conversion
    ff h input fmt o s buffer path s1 f s2 e s3 :
  _prepare_input h input s = (Ok (buffer, path), s1) ->
  _detect_format ff h buffer path s1 = (Ok f, s2) ->
  is_format_supported ff f DirInput = true ->
  is_format_supported ff fmt DirOutput = true ->
  co_metadata o = true ->
  extract_metadata ff h (InBytes buffer) (Some f) s2 = (Raise e, s3) ->
  exists r o',
    convert ff h input fmt (Some o) s = (Ok r, o', s3) /\
    cr_success r = false /\
    cr_errors r = [exn_str e] /\
    cr_warnings r = [].
Proof.
  intros H1 H2 H3 H4 Hm He.
  rewrite convert_run. cbv zeta.
  unfold convert_try, mbind. rewrite H1. cbn [fst snd].
  rewrite H2, H3, H4. cbn [negb co_metadata set_output_format default from_option id].
  rewrite Hm, He.
  cbn. eauto 10.
Qed.

(** ** Batches *)

Implicit Types (bs : @batch_state PyAny World).

(** The [for] loop over the patterns collects every match. *)
Lemma files_length (g : string -> list string) (ps : list string) (acc : list string) :
  length (fold_left (fun files pattern => files ++ g pattern)%list ps acc) =
  (length acc + sum_list (map (fun pattern => length (g pattern)) ps))%nat.
Proof.
  revert acc. induction ps as [|p ps IH]; intros acc; cbn.
  - lia.
  - rewrite IH, length_app. lia.
Qed.

(** A result is a success or it is not. *)
Lemma success_partition (rs : list (@ConversionResult MetadataResult)) :
  (length (List.filter cr_success rs) +
   length (List.filter (fun r => negb (cr_success r)) rs))%nat = length rs.
Proof.
  induction rs as [|r rs IH]; cbn; [done|].
  destruct (cr_success r); cbn; lia.
Qed.

(** One task: it leaves the semaphore as it found it, and either
    returns a result and leaves [errors] alone, or returns no result
    and appends one entry for its file. *)
Lemma convert_file_body_run ff h fmt total results file bs :
  exists x bs',
    convert_file_body ff h fmt total results file bs = (x, bs') /\
    bs_semaphore bs' = bs_semaphore bs /\
    ((exists res, x = Ok (Some res) /\ bs_errors bs' = bs_errors bs) \/
     (exists e, as_result x = None /\
                bs_errors bs' =
                (bs_errors bs ++ [{| ee_file := file; ee_error := exn_str e |}])%list)).
Proof.
  unfold convert_file_body, try_except, mbind, call_convert.
  destruct (convert_total ff h (InPath file) fmt (Some (bo_base (bs_options bs)))
              (bs_state bs)) as (res & s' & ->).
  unfold gets, call_on_progress, call_on_error, errors_append, modify, lift_state,
    mbind, log, modify, lift, mret, raise.
  cbn.
  repeat case_match; simplify_eq; cbn; eauto 10.
Qed.

(** A task that gets through the semaphore behaves as its body. *)
Lemma convert_file_inv ff h fmt total results file bs x bs' :
  convert_file ff h fmt total results file bs = Some (x, bs') ->
  bs_semaphore bs' = bs_semaphore bs /\
  ((exists res, x = Ok (Some res) /\ bs_errors bs' = bs_errors bs) \/
   (exists e, as_result x = None /\
              bs_errors bs' =
              (bs_errors bs ++ [{| ee_file := file; ee_error := exn_str e |}])%list)).
Proof.
  unfold convert_file, with_semaphore.
  destruct (0 <? bs_semaphore bs); [|discriminate].
  destruct (convert_file_body_run ff h fmt total results file
              (set_semaphore bs (bs_semaphore bs - 1))) as (y & bs1 & -> & Hs & Hr).
  intros [= <- <-]. cbn in *. split; [lia|exact Hr].
Qed.

(** With a free slot the task gets through. *)
Lemma convert_file_total ff h fmt total results file bs :
  1 <= bs_semaphore bs ->
  exists x bs', convert_file ff h fmt total results file bs = Some (x, bs').
Proof.
  intros Hsem. unfold convert_file, with_semaphore.
  destruct (0 <? bs_semaphore bs) eqn:E; [|apply Z.ltb_ge in E; lia].
  destruct (convert_file_body _ _ _ _ _ _ _) as [x bs']. eauto.
Qed.

(** All tasks: every file yields a result or an entry of [errors]. *)
Lemma gather_inv ff h fmt total results files bs xs bs' :
  gather (map (convert_file ff h fmt total results) files) bs = Some (xs, bs') ->
  bs_semaphore bs' = bs_semaphore bs /\
  (length (omap as_result xs) + length (bs_errors bs'))%nat =
  (length files + length (bs_errors bs))%nat.
Proof.
  revert bs xs bs'. induction files as [|file files IH]; intros bs xs bs'; cbn.
  - intros [= <- <-]. done.
  - destruct (convert_file _ _ _ _ _ _ _) as [[x bs1]|] eqn:E1; [|discriminate].
    destruct (gather _ _) as [[rs bs2]|] eqn:E2; [|discriminate].
    intros [= <- <-].
    apply convert_file_inv in E1 as (Hs1 & Hr).
    apply IH in E2 as (Hs2 & Hlen).
    split; [congruence|].
    destruct Hr as [(res & -> & He) | (e & Hx & He)]; cbn.
    + rewrite He in Hlen. lia.
    + rewrite Hx. rewrite He, length_app in Hlen. cbn in Hlen. lia.
Qed.

Lemma gather_total ff h fmt total results files bs :
  1 <= bs_semaphore bs ->
  exists xs bs',
    gather (map (convert_file ff h fmt total results) files) bs = Some (xs, bs').
Proof.
  revert bs. induction files as [|file files IH]; intros bs Hsem; cbn.
  - eauto.
  - destruct (convert_file_total ff h fmt total results file bs Hsem)
      as (x & bs1 & E1).
    rewrite E1. apply convert_file_inv in E1 as (Hs1 & _).
    destruct (IH bs1 ltac:(lia)) as (xs & bs2 & ->). eauto.
Qed.

(** An aggregate that [convert_batch] returns counts every matched
    file once, whatever happens in the tasks and whatever
    [continue_on_error] says. *)
Lemma convert_batch_inv ff h patterns fmt options s b bo s' :
  convert_batch ff h patterns fmt options s = Some (Ok b, bo, s') ->
  br_total_files b = glob_matches h (patterns_list patterns) (st_world s) /\
  br_success_count b = length (List.filter cr_success (br_results b)) /\
  br_error_count b = length (br_errors b) /\
  (length (br_results b) + br_error_count b)%nat = br_total_files b.
Proof.
  unfold convert_batch.
  destruct (Semaphore _) as [sem|e]; [|discriminate].
  destruct (gather _ _) as [[xs bs']|] eqn:E; [|discriminate].
  intros [= <- _ _]. cbn.
  apply gather_inv in E as (_ & Hlen).
  rewrite files_length in *. cbn in *. unfold glob_matches.
  repeat split. lia.
Qed.

(** With a semaphore of at least one slot the call returns, and what
    it returns is an aggregate. *)
Lemma convert_batch_total ff h patterns fmt options s :
  1 <= bo_max_concurrency (default BatchConversionOptions_default options) ->
  exists b bo s', convert_batch ff h patterns fmt options s = Some (Ok b, bo, s').
Proof.
  intros Hmax. unfold convert_batch, Semaphore.
  destruct (_ <? 0) eqn:E; [apply Z.ltb_lt in E; lia|].
  match goal with
  | |- context [gather (map (convert_file ff h fmt ?total ?results) ?files) ?bs0] =>
      destruct (gather_total ff h fmt total results files bs0 Hmax) as (xs & bs' & ->)
  end.
  eauto.
Qed.

(** C3. With [continue_on_error] set, the aggregate [convert_batch]
    returns has as [total_files] the number of glob matches summed over
    the patterns, duplicates kept, and in it the results with
    [success = True], the results with [success = False] and the
    entries counted by [error_count] add up to [total_files]; and the
    call does return an aggregate whenever [max_concurrency] is at
    least 1, as the data model requires. *)
Theorem batch_accounting ff h patterns fmt options s :
  bo_continue_on_error (default BatchConversionOptions_default options) = true ->
  (forall b bo s',
     convert_batch ff h patterns fmt options s = Some (Ok b, bo, s') ->
     br_total_files b = glob_matches h (patterns_list patterns) (st_world s) /\
     br_success_count b = length (List.filter cr_success (br_results b)) /\
     (br_success_count b +
      length (List.filter (fun r => negb (cr_success r)) (br_results b)) +
      br_error_count b)%nat = br_total_files b) /\
  (1 <= bo_max_concurrency (default BatchConversionOptions_default options) ->
   exists b bo s', convert_batch ff h patterns fmt options s = Some (Ok b, bo, s')).
Proof.
  intros _. split; [|apply convert_batch_total].
  intros b bo s' Hrun.
  apply convert_batch_inv in Hrun as (Htotal & Hsucc & _ & Hsum).
  repeat split; try done.
  rewrite Hsucc, success_partition. exact Hsum.
Qed.

(** ** The log of callback calls *)

Local Abbreviation keeps_log c :=
  (forall s x s', c s = (x, s') -> st_log s' = st_log s).

Lemma keeps_mret {A} (a : A) : keeps_log (mret (S:=@state World) a).
Proof. intros s x s' [= _ <-]. reflexivity. Qed.

Lemma keeps_raise {A} e : keeps_log (raise (S:=@state World) (A:=A) e).
Proof. intros s x s' [= _ <-]. reflexivity. Qed.

Lemma keeps_of_outcome {A} (x0 : outcome A) : keeps_log (of_outcome (S:=@state World) x0).
Proof. intros s x s' [= _ <-]. reflexivity. Qed.

Lemma keeps_now h : keeps_log (now h).
Proof. intros s x s' [= _ <-]. reflexivity. Qed.

Lemma keeps_lift {A} (c : M World A) : keeps_log (lift c).
Proof.
  intros s x s'. unfold lift. destruct (c (st_world s)). intros [= _ <-]. reflexivity.
Qed.

Lemma keeps_bind {A B} (c : M (@state World) A) (k : A -> M (@state World) B) :
  keeps_log c -> (forall a, keeps_log (k a)) -> keeps_log (mbind c k).
Proof.
  intros Hc Hk s x s'. unfold mbind.
  destruct (c s) as [[a|e] s1] eqn:E.
  - intros H. rewrite (Hk _ _ _ _ H). eapply Hc, E.
  - intros [= _ <-]. eapply Hc, E.
Qed.

Local Ltac keeps :=
  repeat first
    [ apply keeps_mret | apply keeps_raise | apply keeps_of_outcome
    | apply keeps_now | apply keeps_lift
    | apply keeps_bind; [|intros ?]
    | assumption
    | match goal with
      | |- context [match ?x with _ => _ end] => destruct x
      end ].

Lemma keeps_prepare_input h input : keeps_log (_prepare_input h input).
Proof. unfold _prepare_input. keeps. Qed.

Lemma keeps_detect_format ff h buffer path :
  keeps_log (_detect_format ff h buffer path).
Proof.
  intros s x s' H.
  destruct (detect_format_pure ff h buffer path s) as (y & Hy).
  rewrite Hy in H. by simplify_eq.
Qed.

Lemma keeps_as_bytes (x0 : @PluginOutput) : keeps_log (as_bytes (World:=World) x0).
Proof. unfold as_bytes. keeps. Qed.

Lemma keeps_execute_conversion ff buffer f fmt o :
  keeps_log (_execute_conversion ff buffer f fmt o).
Proof.
  unfold _execute_conversion, _optimize_file. keeps; apply keeps_as_bytes.
Qed.

Lemma keeps_save_output h data fmt o path : keeps_log (_save_output h data fmt o path).
Proof. unfold _save_output. keeps. Qed.

Lemma keeps_extract_metadata ff h input hint :
  keeps_log (extract_metadata ff h input hint).
Proof.
  unfold extract_metadata.
  apply keeps_bind; [apply keeps_prepare_input|intros ?].
  apply keeps_bind; [|intros ?; apply keeps_lift].
  destruct (truthy hint); [apply keeps_mret|apply keeps_detect_format].
Qed.

(** A single conversion calls no callback. *)
Lemma keeps_convert_try ff h input fmt o t0 :
  keeps_log (convert_try ff h input fmt o t0).
Proof.
  unfold convert_try.
  apply keeps_bind; [apply keeps_prepare_input|intros ?].
  apply keeps_bind; [apply keeps_detect_format|intros ?].
  destruct (negb _); [apply keeps_raise|].
  destruct (negb _); [apply keeps_raise|].
  apply keeps_bind; [|intros ?].
  { destruct (co_metadata o); [|apply keeps_mret].
    apply keeps_bind; [apply keeps_extract_metadata|intros ?; apply keeps_mret]. }
  apply keeps_bind; [apply keeps_execute_conversion|intros ?].
  apply keeps_bind; [apply keeps_now|intros ?].
  destruct (_ || _); [|apply keeps_mret].
  apply keeps_bind; [apply keeps_save_output|intros ?; apply keeps_mret].
Qed.

Lemma convert_log ff h input fmt opts s x o' s' :
  convert ff h input fmt opts s = (x, o', s') -> st_log s' = st_log s.
Proof.
  rewrite convert_run. cbv zeta.
  destruct (convert_try _ _ _ _ _ _ _) as [[r|e] s0] eqn:E.
  - intros [= _ _ <-]. eapply keeps_convert_try, E.
  - destruct (convert_except_run h fmt (clock h (st_world s)) e s0) as (r & -> & _).
    intros [= _ _ <-]. eapply keeps_convert_try, E.
Qed.

(** A task calls the progress callback with [len(results) + 1], and
    [results] is the empty list the enclosing call starts with. *)
Lemma convert_file_body_log ff h fmt total file bs x bs' :
  convert_file_body ff h fmt total [] file bs = (x, bs') ->
  exists evs,
    st_log (bs_state bs') = (st_log (bs_state bs) ++ evs)%list /\
    Forall (eq 1%nat) (progress_counts evs).
Proof.
  unfold convert_file_body, try_except, mbind, call_convert.
  destruct (convert ff h (InPath file) fmt (Some (bo_base (bs_options bs))) (bs_state bs))
    as [[y ob] s1] eqn:Ec.
  apply convert_log in Ec.
  unfold gets, call_on_progress, call_on_error, errors_append, modify, lift_state,
    mbind, log, modify, lift, mret, raise.
  cbn. intros H.
  repeat case_match; simplify_eq; cbn; rewrite ?Ec;
    first [ exists []; rewrite app_nil_r; split; [reflexivity|constructor]
          | eexists [_]; split; [reflexivity|cbn; repeat constructor]
          | eexists [_; _]; split; [rewrite <- app_assoc; reflexivity|cbn; repeat constructor] ].
Qed.

Lemma gather_log ff h fmt total files bs xs bs' :
  gather (map (convert_file ff h fmt total []) files) bs = Some (xs, bs') ->
  exists evs,
    st_log (bs_state bs') = (st_log (bs_state bs) ++ evs)%list /\
    Forall (eq 1%nat) (progress_counts evs).
Proof.
  revert bs xs bs'. induction files as [|file files IH]; intros bs xs bs'; cbn.
  - intros [= _ <-]. exists []. rewrite app_nil_r. split; [reflexivity|constructor].
  - unfold convert_file at 1, with_semaphore.
    destruct (0 <? bs_semaphore bs); [|discriminate].
    destruct (convert_file_body _ _ _ _ _ _ _) as [x bs1] eqn:E1.
    apply convert_file_body_log in E1 as (evs1 & Hl1 & Hf1). cbn in Hl1.
    destruct (gather _ _) as [[rs bs2]|] eqn:E2; [|discriminate].
    apply IH in E2 as (evs2 & Hl2 & Hf2). cbn in Hl2.
    intros [= _ <-]. exists (evs1 ++ evs2)%list.
    split; [rewrite Hl2, Hl1, app_assoc; reflexivity|].
    unfold progress_counts in *. rewrite omap_app. apply Forall_app. done.
Qed.

(** Whatever the batch, every call of the progress callback receives
    1 as its count of completed attempts. *)
Lemma progress_count_always_one ff h patterns fmt options s x bo s' :
  convert_batch ff h patterns fmt options s = Some (x, bo, s') ->
  exists evs,
    st_log s' = (st_log s ++ evs)%list /\ Forall (eq 1%nat) (progress_counts evs).
Proof.
  unfold convert_batch.
  destruct (Semaphore _).
  2:{ intros [= _ _ <-]. exists []. rewrite app_nil_r. split; [reflexivity|constructor]. }
  destruct (gather _ _) as [[xs bs']|] eqn:E; [|discriminate].
  apply gather_log in E as (evs & Hl & Hf). cbn in Hl.
  intros [= _ _ <-]. eauto.
Qed.

End Properties.

(** * The engine on the small host *)

(** A conversion that succeeds, one that is also written to disk, and
    the failures of the pipeline. *)
Example convert_examples :
  (exists r o s',
     convert Demo.forge Demo.host (InPath "a.txt") "md" None Demo.start = (Ok r, o, s') /\
     cr_success r = true /\ cr_original_format r = "txt" /\ cr_output_format r = "md" /\
     cr_data r = Some (list_byte_of_string "olleh") /\ cr_output_path r = None /\
     s' = Demo.start) /\
  (exists r o s',
     convert Demo.forge Demo.host (InPath "a.txt") "md"
       (Some (Demo.set_output_dir Demo.defaults (Some "out"))) Demo.start = (Ok r, o, s') /\
     cr_success r = true /\ cr_output_path r = Some "out/a.md" /\
     Demo.fs_lookup "out/a.md" (st_world s') = Some (list_byte_of_string "olleh")) /\
  (exists r o s',
     convert Demo.forge Demo.host (InPath "c.txt") "md" None Demo.start = (Ok r, o, s') /\
     cr_success r = false /\ cr_errors r = ["No such file or directory: c.txt"]) /\
  (exists r o s',
     convert Demo.forge Demo.host (InBytes Demo.hello) "md" None Demo.start = (Ok r, o, s') /\
     cr_success r = false /\ cr_errors r = ["Formato de entrada não suportado: unknown"]) /\
  (exists r o s',
     convert Demo.forge3 Demo.host (InBytes Demo.pdf_bytes) "md" None Demo.start
       = (Ok r, o, s') /\
     cr_success r = false /\ cr_errors r = ["Conversão não suportada: pdf → md"]) /\
  (exists r o s',
     convert Demo.forge3 Demo.host (InBytes Demo.pdf_bytes) "txt" None Demo.start
       = (Ok r, o, s') /\
     cr_success r = false /\ cr_errors r = [""]) /\
  (exists r o s',
     convert Demo.forge Demo.host InOther "md" None Demo.start = (Ok r, o, s') /\
     cr_success r = false /\ cr_errors r = ["Tipo de entrada não suportado"]).
Proof.
  repeat split; vm_compute; do 3 eexists; (split; [reflexivity|]); done.
Qed.

(** Detection by extension (lowercased), by MIME type, by signature. *)
Example detect_examples :
  _detect_format Demo.forge Demo.host Demo.hello (Some "NOTES.TXT") Demo.start
    = (Ok "txt", Demo.start) /\
  _detect_format Demo.forge Demo.host Demo.hello (Some "readme.text") Demo.start
    = (Ok "txt", Demo.start) /\
  _detect_format Demo.forge Demo.host (list_byte_of_string "%PDF-1.7") (Some "scan.bin")
      Demo.start
    = (Ok "pdf", Demo.start) /\
  _detect_format Demo.forge Demo.host Demo.hello None Demo.start
    = (Ok "unknown", Demo.start).
Proof. repeat split. Qed.

(** [a.txt] to [pdf], which no plug-in writes. *)
Lemma unsupported_output_format_reported_witness :
  _prepare_input Demo.host (InPath "a.txt") Demo.start
    = (Ok (Demo.hello, Some "a.txt"), Demo.start) /\
  _detect_format Demo.forge Demo.host Demo.hello (Some "a.txt") Demo.start
    = (Ok "txt", Demo.start) /\
  is_format_supported Demo.forge "txt" DirInput = true /\
  exists r o,
    convert Demo.forge Demo.host (InPath "a.txt") "pdf" None Demo.start
      = (Ok r, o, Demo.start) /\
    cr_success r = false /\
    cr_data r = None /\
    cr_errors r = ["Formato de saída não suportado: pdf"].
Proof.
  split; [reflexivity|]. split; [reflexivity|]. split; [reflexivity|].
  apply (unsupported_output_format_reported Demo.forge Demo.host (InPath "a.txt")
           "pdf" None Demo.start Demo.hello (Some "a.txt") Demo.start "txt" Demo.start).
  - reflexivity.
  - reflexivity.
  - reflexivity.
  - intros p [<-|[]]. reflexivity.
Defined.

(** C4 fails as stated: [a.txt] is detected as [txt], [txt] is asked
    for with compression "none", and the registry reads [txt] without
    writing it; the conversion is refused. *)
Lemma same_format_counterexample :
  _detect_format Demo.forge Demo.host Demo.hello (Some "a.txt") Demo.start
    = (Ok "txt", Demo.start) /\
  co_compression Demo.uncompressed = NONE /\
  exists r o s',
    convert Demo.forge Demo.host (InPath "a.txt") "txt" (Some Demo.uncompressed) Demo.start
      = (Ok r, o, s') /\
    cr_success r = false /\
    cr_data r = None /\
    cr_errors r = ["Formato de saída não suportado: txt"].
Proof.
  split; [reflexivity|]. split; [reflexivity|].
  do 3 eexists. split; [reflexivity|]. cbn. done.
Qed.

(** The same request against a registry that also writes [txt]. *)
Lemma same_format_uncompressed_identity_witness :
  exists r o s',
    convert Demo.forge2 Demo.host (InPath "a.txt") "txt" (Some Demo.uncompressed) Demo.start
      = (Ok r, o, s') /\
    cr_success r = true /\ cr_data r = Some Demo.hello.
Proof.
  apply (same_format_uncompressed_identity Demo.forge2 Demo.host (InPath "a.txt") "txt"
           Demo.uncompressed Demo.start Demo.hello (Some "a.txt")
           Demo.start Demo.start Demo.start).
  - reflexivity.
  - reflexivity.
  - reflexivity.
  - reflexivity.
  - reflexivity.
  - reflexivity.
  - exact I.
Defined.

(** C8 fails as stated: [a.txt] converts to [md] when no metadata is
    asked for; with metadata asked for and an extractor that raises,
    the conversion fails and nothing is recorded in [warnings]. *)
Lemma metadata_failure_counterexample :
  co_metadata Demo.with_metadata = true /\
  extract_metadata Demo.forge_bad_metadata Demo.host (InBytes Demo.hello) (Some "txt")
      Demo.start
    = (Raise (MkExn OtherException "metadata unavailable"), Demo.start) /\
  (exists r o s',
     convert Demo.forge_bad_metadata Demo.host (InPath "a.txt") "md"
       (Some Demo.defaults) Demo.start = (Ok r, o, s') /\
     cr_success r = true) /\
  (exists r o s',
     convert Demo.forge_bad_metadata Demo.host (InPath "a.txt") "md"
       (Some Demo.with_metadata) Demo.start = (Ok r, o, s') /\
     cr_success r = false /\
     cr_errors r = ["metadata unavailable"] /\
     cr_warnings r = []).
Proof.
  split; [reflexivity|]. split; [reflexivity|].
  split; do 3 eexists; (split; [reflexivity|]); cbn; done.
Qed.

Lemma metadata_failure_fails_conversion_witness :
  exists r o,
    convert Demo.forge_bad_metadata Demo.host (InPath "a.txt") "md"
      (Some Demo.with_metadata) Demo.start = (Ok r, o, Demo.start) /\
    cr_success r = false /\
    cr_errors r = ["metadata unavailable"] /\
    cr_warnings r = [].
Proof.
  apply (metadata_failure_fails_conversion Demo.forge_bad_metadata Demo.host
           (InPath "a.txt") "md" Demo.with_metadata Demo.start Demo.hello (Some "a.txt")
           Demo.start "txt" Demo.start
           (MkExn OtherException "metadata unavailable") Demo.start).
  - reflexivity.
  - reflexivity.
  - reflexivity.
  - reflexivity.
  - reflexivity.
  - reflexivity.
Defined.

(** C10 fails as stated: the caller's options start without an output
    format and come back with the requested one. *)
Lemma options_mutated_counterexample :
  co_output_format Demo.defaults = None /\
  exists r o' s',
    convert Demo.forge Demo.host (InPath "a.txt") "md" (Some Demo.defaults) Demo.start
      = (Ok r, o', s') /\
    co_output_format o' = Some "md" /\
    o' <> Demo.defaults.
Proof.
  split; [reflexivity|].
  do 3 eexists. split; [reflexivity|]. split; [reflexivity|].
  intros H. apply (f_equal co_output_format) in H. discriminate H.
Qed.

(** Three matches of two overlapping patterns, five slots. *)
Lemma batch_accounting_witness :
  exists b bo s',
    convert_batch Demo.forge Demo.host (ManyPatterns ["*.txt"; "a.txt"]) "md"
      (Some (Demo.batch_options 5 true (Some Demo.quiet))) Demo.start
      = Some (Ok b, bo, s') /\
    br_total_files b = 3%nat /\
    br_success_count b = length (List.filter cr_success (br_results b)) /\
    (br_success_count b +
     length (List.filter (fun r => negb (cr_success r)) (br_results b)) +
     br_error_count b)%nat = br_total_files b.
Proof.
  destruct (batch_accounting Demo.forge Demo.host (ManyPatterns ["*.txt"; "a.txt"]) "md"
              (Some (Demo.batch_options 5 true (Some Demo.quiet))) Demo.start)
    as [Hinv Htotal].
  - reflexivity.
  - destruct Htotal as (b & bo & s' & Hrun).
    + simpl. lia.
    + exists b, bo, s'. split; [exact Hrun|].
      destruct (Hinv b bo s' Hrun) as (Ht & Hs & Hsum).
      split; [rewrite Ht; reflexivity|]. split; [exact Hs|exact Hsum].
Defined.

Example batch_accounting_overlap :
  glob_matches Demo.host ["*.txt"; "a.txt"] Demo.disk = 3%nat.
Proof. reflexivity. Qed.

(** C7 on the code: [continue_on_error] is off and the progress
    callback raises on [b.txt], the first file.  The entry is recorded
    and the error callback called, but [a.txt] is converted all the
    same and the call returns an ordinary aggregate. *)
Example batch_error_not_surfaced :
  exists b bo s',
    convert_batch Demo.forge Demo.host (ManyPatterns ["b.txt"; "a.txt"]) "md"
      (Some (Demo.batch_options 5 false (Some Demo.progress_failing))) Demo.start
      = Some (Ok b, bo, s') /\
    br_total_files b = 2%nat /\
    br_success_count b = 1%nat /\
    br_error_count b = 1%nat /\
    br_errors b = [{| ee_file := "b.txt"; ee_error := "progress failed" |}] /\
    map cr_success (br_results b) = [true] /\
    st_log s' = [EvProgress 1 2 "b.txt";
                 EvError (MkExn OtherException "progress failed") "b.txt";
                 EvProgress 1 2 "a.txt"].
Proof.
  vm_compute. do 3 eexists. split; [reflexivity|]. done.
Qed.

(** C9 on the code: two files, both converted; the progress callback
    is called with count 1 both times. *)
Example progress_count_stuck :
  exists b bo s',
    convert_batch Demo.forge Demo.host (ManyPatterns ["*.txt"]) "md"
      (Some (Demo.batch_options 5 true (Some Demo.quiet))) Demo.start
      = Some (Ok b, bo, s') /\
    br_total_files b = 2%nat /\
    br_success_count b = 2%nat /\
    st_log s' = [EvProgress 1 2 "a.txt"; EvProgress 1 2 "b.txt"] /\
    progress_counts (st_log s') = [1%nat; 1%nat].
Proof.
  vm_compute. do 3 eexists. split; [reflexivity|]. done.
Qed.

(** * Further properties of single conversions *)

Section SingleConversion.

Context {PyAny MetadataResult World : Type}.

Implicit Types (ff : @FileForge PyAny MetadataResult World) (h : @Host World).
Implicit Types (s : @state World) (o : @ConversionOptions PyAny).
Implicit Types (r : @ConversionResult MetadataResult).

(** The options [convert] works with. *)
Local Abbreviation effective opts fmt :=
  (set_output_format (default ConversionOptions_default opts) (Some fmt)).

Local Abbreviation persistence_asked o :=
  (truthy (co_output_dir o) || truthy (co_output_name o)).

(** The path of the input, when the input is a path. *)
Local Abbreviation input_path input :=
  (match input with InPath p => Some p | _ => None end).

(** ** The pipeline, step by step *)

(** The metadata step of [convert]. *)
Local Abbreviation metadata_step ff h o buffer f :=
  (if co_metadata o
   then mbind (extract_metadata ff h (InBytes buffer) (Some f)) (fun m => mret (Some m))
   else mret None).

(** A run of the [try] block that returns went through every step. *)
Lemma convert_try_inv ff h input fmt o t0 s r s' :
  convert_try ff h input fmt o t0 s = (Ok r, s') ->
  exists buffer path s1 f s2 md s3 data s4,
    _prepare_input h input s = (Ok (buffer, path), s1) /\
    _detect_format ff h buffer path s1 = (Ok f, s2) /\
    is_format_supported ff f DirInput = true /\
    is_format_supported ff fmt DirOutput = true /\
    metadata_step ff h o buffer f s2 = (Ok md, s3) /\
    _execute_conversion ff buffer f fmt o s3 = (Ok data, s4) /\
    let result := {|
      cr_success := true; cr_original_format := f; cr_output_format := fmt;
      cr_original_size := length buffer;
      cr_processing_time := clock h (st_world s4) - t0;
      cr_output_path := None; cr_data := Some data;
      cr_output_size := Some (length data); cr_metadata := md;
      cr_errors := []; cr_warnings := [] |} in
    if truthy (co_output_dir o) || truthy (co_output_name o)
    then exists p, _save_output h data fmt o path s4 = (Ok p, s') /\
                   r = set_output_path result (Some p)
    else s' = s4 /\ r = result.
Proof.
  unfold convert_try. unfold mbind at 1.
  destruct (_prepare_input h input s) as [[[buffer path]|e] s1] eqn:E1; [|discriminate].
  cbn [fst snd]. unfold mbind at 1.
  destruct (_detect_format ff h buffer path s1) as [[f|e] s2] eqn:E2; [|discriminate].
  destruct (is_format_supported ff f DirInput) eqn:E3; [|discriminate].
  destruct (is_format_supported ff fmt DirOutput) eqn:E4; [|discriminate].
  cbn [negb]. unfold mbind at 1.
  destruct (metadata_step ff h o buffer f s2) as [[md|e] s3] eqn:E5; [|discriminate].
  unfold mbind at 1.
  destruct (_execute_conversion ff buffer f fmt o s3) as [[data|e] s4] eqn:E6;
    [|discriminate].
  unfold mbind at 1. cbn [now gets].
  intros H. exists buffer, path, s1, f, s2, md, s3, data, s4.
  repeat (split; [done|]). cbv zeta.
  destruct (truthy (co_output_dir o) || truthy (co_output_name o)).
  - unfold mbind in H.
    destruct (_save_output h data fmt o path s4) as [[p|e] s5]; [|discriminate].
    unfold mret in H. simplify_eq. eauto.
  - unfold mret in H. simplify_eq. done.
Qed.

(** The record [convert] returns when its [try] block raised [e] and
    the handler ran in state [s']. *)
Local Abbreviation failure_result h fmt s s' e :=
  {| cr_success := false; cr_original_format := "unknown"; cr_output_format := fmt;
     cr_original_size := 0;
     cr_processing_time := clock h (st_world s') - clock h (st_world s);
     cr_output_path := None; cr_data := None; cr_output_size := None;
     cr_metadata := None; cr_errors := [exn_str e]; cr_warnings := [] |}.

(** [convert] is decided by its [try] block. *)
Lemma convert_cases ff h input fmt opts s :
  let o := set_output_format (default ConversionOptions_default opts) (Some fmt) in
  (exists r s', convert_try ff h input fmt o (clock h (st_world s)) s = (Ok r, s') /\
                cr_success r = true /\
                convert ff h input fmt opts s = (Ok r, o, s')) \/
  (exists e s', convert_try ff h input fmt o (clock h (st_world s)) s = (Raise e, s') /\
                convert ff h input fmt opts s = (Ok (failure_result h fmt s s' e), o, s')).
Proof.
  cbv zeta. rewrite convert_run. cbv zeta.
  destruct (convert_try _ _ _ _ _ _ _) as [[r|e] s'] eqn:E.
  - left. exists r, s'. split; [done|]. split; [|done].
    by apply convert_try_ok in E as (? & _).
  - right. exists e, s'. done.
Qed.

(** A raise of the [try] block, seen from the caller. *)
Lemma convert_of_raise ff h input fmt opts s e s' :
  convert_try ff h input fmt
    (set_output_format (default ConversionOptions_default opts) (Some fmt))
    (clock h (st_world s)) s = (Raise e, s') ->
  convert ff h input fmt opts s =
  (Ok (failure_result h fmt s s' e),
   set_output_format (default ConversionOptions_default opts) (Some fmt), s').
Proof. intros H. rewrite convert_run. cbv zeta. by rewrite H. Qed.

(** X1. A successful result is consistent: the sizes are those of the
    input buffer and of the data, the formats are the detected and the
    requested one, both accepted by the registry, and an output path is
    present exactly when persistence was asked for. *)
Theorem convert_success_fields ff h input fmt opts s r o' s' :
  convert ff h input fmt opts s = (Ok r, o', s') ->
  cr_success r = true ->
  exists buffer path s1 data,
    _prepare_input h input s = (Ok (buffer, path), s1) /\
    cr_original_size r = length buffer /\
    cr_data r = Some data /\
    cr_output_size r = Some (length data) /\
    cr_output_format r = fmt /\
    is_format_supported ff (cr_original_format r) DirInput = true /\
    is_format_supported ff fmt DirOutput = true /\
    cr_errors r = [] /\
    (is_Some (cr_output_path r) <->
     truthy (co_output_dir o') || truthy (co_output_name o') = true).
Proof.
  intros Hc Hs.
  destruct (convert_cases ff h input fmt opts s) as
    [(r0 & s0 & Ht & _ & Hc0) | (e & s0 & _ & Hc0)];
    rewrite Hc0 in Hc; simplify_eq.
  apply convert_try_inv in Ht
    as (buffer & path & s1 & f & s2 & md & s3 & data & s4 &
        H1 & _ & H3 & H4 & _ & _ & Hr).
  exists buffer, path, s1, data. split; [done|].
  cbv zeta in Hr. cbn [co_output_dir co_output_name set_output_format] in *.
  destruct (truthy _ || truthy _).
  - destruct Hr as (p & _ & ->). cbn. repeat split; eauto.
  - destruct Hr as (_ & ->). cbn. repeat split; eauto.
    + by intros [? ?].
    + discriminate.
Qed.

(** X2. A failed result says nothing of the input: the original format is
    "unknown" and the original size 0 even when the input was read and
    its format detected; it has no data, size, metadata or path, and
    exactly one error; its time runs up to the state the failure left. *)
Theorem convert_failure_fields ff h input fmt opts s r o' s' :
  convert ff h input fmt opts s = (Ok r, o', s') ->
  cr_success r = false ->
  cr_original_format r = "unknown" /\
  cr_original_size r = 0%nat /\
  cr_output_format r = fmt /\
  cr_data r = None /\
  cr_output_size r = None /\
  cr_metadata r = None /\
  cr_output_path r = None /\
  length (cr_errors r) = 1%nat /\
  cr_processing_time r = clock h (st_world s') - clock h (st_world s).
Proof.
  intros Hc Hs.
  destruct (convert_cases ff h input fmt opts s) as
    [(r0 & s0 & _ & Hs0 & Hc0) | (e & s0 & _ & Hc0)];
    rewrite Hc0 in Hc; simplify_eq; first [congruence | cbn; repeat split].
Qed.

(** X3. An input that is neither bytes nor a path is refused like any
    other failure: the call returns, nothing was touched. *)
Theorem convert_unsupported_input_type ff h fmt opts s :
  exists r o',
    convert ff h InOther fmt opts s = (Ok r, o', s) /\
    cr_success r = false /\
    cr_errors r = ["Tipo de entrada não suportado"].
Proof.
  do 2 eexists. split.
  - apply convert_of_raise. apply pipeline_input_type_error.
  - done.
Qed.

(** X4. A file that cannot be read: the failure carries the message of the
    exception [open] raised. *)
Theorem convert_read_error ff h p fmt opts s e w :
  read_file h p (st_world s) = (Raise e, w) ->
  exists r o',
    convert ff h (InPath p) fmt opts s
      = (Ok r, o', {| st_world := w; st_log := st_log s |}) /\
    cr_success r = false /\
    cr_errors r = [exn_str e].
Proof.
  intros H. do 2 eexists. split.
  - apply convert_of_raise. by apply pipeline_read_error.
  - done.
Qed.

(** X5. The input format is checked first: when the detected format is not
    readable, that is the error reported, whatever the output format. *)
Theorem convert_input_checked_first ff h input fmt opts s buffer path s1 f s2 :
  _prepare_input h input s = (Ok (buffer, path), s1) ->
  _detect_format ff h buffer path s1 = (Ok f, s2) ->
  is_format_supported ff f DirInput = false ->
  exists r o',
    convert ff h input fmt opts s = (Ok r, o', s2) /\
    cr_success r = false /\
    cr_errors r = ["Formato de entrada não suportado: " +:+ f].
Proof.
  intros H1 H2 H3. do 2 eexists. split.
  - apply convert_of_raise. by eapply pipeline_unsupported_input.
  - done.
Qed.

(** ** The transform step *)

(** Once the checks and the metadata step are through, the [try] block
    is its transform and persistence steps. *)
Lemma convert_try_from_execute ff h input fmt o t0 s buffer path s1 f s2 md s3 :
  _prepare_input h input s = (Ok (buffer, path), s1) ->
  _detect_format ff h buffer path s1 = (Ok f, s2) ->
  is_format_supported ff f DirInput = true ->
  is_format_supported ff fmt DirOutput = true ->
  metadata_step ff h o buffer f s2 = (Ok md, s3) ->
  convert_try ff h input fmt o t0 s =
  match _execute_conversion ff buffer f fmt o s3 with
  | (Raise e, s4) => (Raise e, s4)
  | (Ok data, s4) =>
      let result := {|
        cr_success := true; cr_original_format := f; cr_output_format := fmt;
        cr_original_size := length buffer;
        cr_processing_time := clock h (st_world s4) - t0;
        cr_output_path := None; cr_data := Some data;
        cr_output_size := Some (length data); cr_metadata := md;
        cr_errors := []; cr_warnings := [] |} in
      if persistence_asked o then
        match _save_output h data fmt o path s4 with
        | (Ok p, s5) => (Ok (set_output_path result (Some p)), s5)
        | (Raise e, s5) => (Raise e, s5)
        end
      else (Ok result, s4)
  end.
Proof.
  intros H1 H2 H3 H4 H5.
  unfold convert_try. unfold mbind at 1. rewrite H1. cbn [fst snd].
  unfold mbind at 1. rewrite H2, H3, H4. cbn [negb].
  unfold mbind at 1. rewrite H5.
  unfold mbind at 1.
  destruct (_execute_conversion ff buffer f fmt o s3) as [[data|e] s4]; [|done].
  unfold mbind at 1. cbn [now gets]. cbv zeta.
  destruct (persistence_asked o); [|done].
  unfold mbind, mret.
  by destruct (_save_output h data fmt o path s4) as [[p|e] s5].
Qed.

(** X6. A same-format request for which no plug-in is registered is
    answered with the input bytes, at every compression level. *)
Theorem same_format_without_optimizer
    ff h input fmt opts s buffer path s1 s2 md s3 :
  _prepare_input h input s = (Ok (buffer, path), s1) ->
  _detect_format ff h buffer path s1 = (Ok fmt, s2) ->
  is_format_supported ff fmt DirInput = true ->
  is_format_supported ff fmt DirOutput = true ->
  find_plugin ff fmt fmt = None ->
  metadata_step ff h (effective opts fmt) buffer fmt s2 = (Ok md, s3) ->
  persistence_asked (effective opts fmt) = false ->
  exists r,
    convert ff h input fmt opts s = (Ok r, effective opts fmt, s3) /\
    cr_success r = true /\
    cr_data r = Some buffer /\
    cr_output_size r = Some (length buffer).
Proof.
  intros H1 H2 H3 H4 Hf H5 Hp.
  rewrite convert_run. cbv zeta.
  rewrite (convert_try_from_execute _ _ _ _ _ _ _ _ _ _ _ _ _ _ H1 H2 H3 H4 H5).
  unfold _execute_conversion, _optimize_file. rewrite String.eqb_refl, Hf.
  destruct (String.eqb _ "none"); unfold mret; cbv zeta; rewrite Hp; eauto.
Qed.

(** X7. Both formats are known to the registry, but no single plug-in
    converts one into the other: the conversion fails with a message
    naming the two formats. *)
Theorem convert_no_plugin ff h input fmt opts s buffer path s1 f s2 md s3 :
  _prepare_input h input s = (Ok (buffer, path), s1) ->
  _detect_format ff h buffer path s1 = (Ok f, s2) ->
  is_format_supported ff f DirInput = true ->
  is_format_supported ff fmt DirOutput = true ->
  metadata_step ff h (effective opts fmt) buffer f s2 = (Ok md, s3) ->
  String.eqb f fmt = false ->
  find_plugin ff f fmt = None ->
  exists r,
    convert ff h input fmt opts s = (Ok r, effective opts fmt, s3) /\
    cr_success r = false /\
    cr_metadata r = None /\
    cr_errors r = ["Conversão não suportada: " +:+ f +:+ " → " +:+ fmt].
Proof.
  intros H1 H2 H3 H4 H5 Hne Hf.
  rewrite convert_run. cbv zeta.
  rewrite (convert_try_from_execute _ _ _ _ _ _ _ _ _ _ _ _ _ _ H1 H2 H3 H4 H5).
  rewrite execute_no_plugin by done. cbn. eauto.
Qed.


(** X9. A plug-in that keeps the [convert] of the base class: the
    conversion fails, and the only error is the empty message of the
    bare [NotImplementedError]. *)
Theorem convert_with_unimplemented_plugin
    ff h input fmt opts s buffer path s1 f s2 md s3 p :
  _prepare_input h input s = (Ok (buffer, path), s1) ->
  _detect_format ff h buffer path s1 = (Ok f, s2) ->
  is_format_supported ff f DirInput = true ->
  is_format_supported ff fmt DirOutput = true ->
  metadata_step ff h (effective opts fmt) buffer f s2 = (Ok md, s3) ->
  String.eqb f fmt = false ->
  find_plugin ff f fmt = Some p ->
  pl_convert p = Plugin_convert ->
  exists r,
    convert ff h input fmt opts s = (Ok r, effective opts fmt, s3) /\
    cr_success r = false /\
    cr_errors r = [""].
Proof.
  intros H1 H2 H3 H4 H5 Hne Hf Hc.
  rewrite convert_run. cbv zeta.
  rewrite (convert_try_from_execute _ _ _ _ _ _ _ _ _ _ _ _ _ _ H1 H2 H3 H4 H5).
  unfold _execute_conversion. rewrite Hne, Hf, Hc. unfold mbind, lift, Plugin_convert.
  cbn. destruct s3. eauto.
Qed.

(** X10. The bytes were converted but could not be saved: the whole
    conversion is reported as failed, and the converted bytes are not
    handed back. *)
Theorem convert_save_failure_discards_data
    ff h input fmt opts s buffer path s1 f s2 md s3 data s4 e s5 :
  _prepare_input h input s = (Ok (buffer, path), s1) ->
  _detect_format ff h buffer path s1 = (Ok f, s2) ->
  is_format_supported ff f DirInput = true ->
  is_format_supported ff fmt DirOutput = true ->
  metadata_step ff h (effective opts fmt) buffer f s2 = (Ok md, s3) ->
  _execute_conversion ff buffer f fmt (effective opts fmt) s3 = (Ok data, s4) ->
  persistence_asked (effective opts fmt) = true ->
  _save_output h data fmt (effective opts fmt) path s4 = (Raise e, s5) ->
  exists r,
    convert ff h input fmt opts s = (Ok r, effective opts fmt, s5) /\
    cr_success r = false /\
    cr_data r = None /\
    cr_errors r = [exn_str e].
Proof.
  intros H1 H2 H3 H4 H5 He Hp Hs.
  rewrite convert_run. cbv zeta.
  rewrite (convert_try_from_execute _ _ _ _ _ _ _ _ _ _ _ _ _ _ H1 H2 H3 H4 H5).
  rewrite He. cbv zeta. rewrite Hp, Hs. cbn. eauto.
Qed.

(** ** Persistence *)


(** A successful save made the directory, then wrote the data under
    the path it returns. *)
Lemma save_output_inv h data fmt o path s p s' :
  _save_output h data fmt o path s = (Ok p, s') ->
  exists w1,
    mkdir_parents h (path_parent h p) (st_world s) = (Ok tt, w1) /\
    write_file h p data w1 = (Ok tt, st_world s').
Proof.
  unfold _save_output. cbv zeta. unfold mbind, lift, mret. cbn.
  destruct (mkdir_parents h _ (st_world s)) as [[[]|e] w1] eqn:E1; [|discriminate].
  cbn.
  destruct (write_file h _ data w1) as [[[]|e] w2] eqn:E2; [|discriminate].
  intros [= <- <-]. cbn. eauto.
Qed.

(** X12. On a file system that reads back what was written, the file at
    [output_path] holds exactly the data of the result when [convert]
    returns. *)
Theorem persisted_output_reads_back ff h input fmt opts s r o' s' p :
  (forall path b w w', write_file h path b w = (Ok tt, w') ->
                       read_file h path w' = (Ok b, w')) ->
  convert ff h input fmt opts s = (Ok r, o', s') ->
  cr_output_path r = Some p ->
  exists data,
    cr_data r = Some data /\
    read_file h p (st_world s') = (Ok data, st_world s').
Proof.
  intros Hfs Hc Hp.
  destruct (convert_cases ff h input fmt opts s) as
    [(r0 & s0 & Ht & _ & Hc0) | (e & s0 & _ & Hc0)];
    rewrite Hc0 in Hc; simplify_eq.
  apply convert_try_inv in Ht
    as (buffer & path & s1 & f & s2 & md & s3 & data & s4 & _ & _ & _ & _ & _ & _ & Hr).
  cbv zeta in Hr. destruct (truthy _ || truthy _).
  - destruct Hr as (p0 & Hsave & ->). cbn in Hp. simplify_eq.
    apply save_output_inv in Hsave as (w1 & _ & Hw).
    exists data. split; [done|]. by apply Hfs in Hw.
  - destruct Hr as (_ & ->). discriminate.
Qed.

Lemma prepare_input_path h input s buffer path s1 :
  _prepare_input h input s = (Ok (buffer, path), s1) -> path = input_path input.
Proof.
  destruct input as [b|p|]; cbn; unfold mbind, mret, raise.
  - by intros [= _ <- _].
  - destruct (lift _ _) as [[d|e] s2]; [by intros [= _ <- _]|discriminate].
  - discriminate.
Qed.

Lemma save_output_path h data fmt o path s p s' :
  _save_output h data fmt o path s = (Ok p, s') ->
  p = path_join h
        (if truthy (co_output_dir o) then default "" (co_output_dir o)
         else if truthy path then path_parent h (default "" path)
         else "./")
        (if truthy (co_output_name o) then default "" (co_output_name o)
         else if truthy path then path_stem h (default "" path) +:+ "." +:+ fmt
         else "output." +:+ fmt).
Proof.
  unfold _save_output. cbv zeta. unfold mbind, mret.
  destruct (lift (mkdir_parents h _) s) as [[[]|e] s1]; [|discriminate].
  destruct (lift (write_file h _ data) s1) as [[[]|e] s2]; [|discriminate].
  intros [= <- _]. f_equal.
  destruct (truthy (co_output_name o)), (truthy path); reflexivity.
Qed.

(** X13. Where the output goes: into the directory asked for, else next to
    the input file, else into [./]; under the name asked for (taken as
    it is, without the format), else the stem of the input file with
    the format as extension, else [output.<format>]. *)
Theorem output_path_rule ff h input fmt opts s r o' s' p :
  convert ff h input fmt opts s = (Ok r, o', s') ->
  cr_output_path r = Some p ->
  p = path_join h
        (if truthy (co_output_dir o') then default "" (co_output_dir o')
         else if truthy (input_path input) then path_parent h (default "" (input_path input))
         else "./")
        (if truthy (co_output_name o') then default "" (co_output_name o')
         else if truthy (input_path input)
              then path_stem h (default "" (input_path input)) +:+ "." +:+ fmt
              else "output." +:+ fmt).
Proof.
  intros Hc Hp.
  destruct (convert_cases ff h input fmt opts s) as
    [(r0 & s0 & Ht & _ & Hc0) | (e & s0 & _ & Hc0)];
    rewrite Hc0 in Hc; simplify_eq.
  apply convert_try_inv in Ht
    as (buffer & path & s1 & f & s2 & md & s3 & data & s4 & H1 & _ & _ & _ & _ & _ & Hr).
  apply prepare_input_path in H1 as ->.
  cbv zeta in Hr. destruct (truthy _ || truthy _).
  - destruct Hr as (p0 & Hsave & ->). cbn in Hp. simplify_eq.
    by apply save_output_path in Hsave.
  - destruct Hr as (_ & ->). discriminate.
Qed.

(** ** Metadata *)

(** X14. [convert] hands the extractor the buffer and the format, never the
    path: two extractors that agree when no path is given cannot be
    told apart by [convert]. *)
Theorem convert_extractor_sees_no_path
    (pm : list (@Plugin PyAny World))
    (ex1 ex2 : bytes -> string -> option string -> M World MetadataResult)
    h input fmt opts s :
  (forall buffer f w, ex1 buffer f None w = ex2 buffer f None w) ->
  convert {| plugin_manager := pm; metadata_extractor := ex1 |} h input fmt opts s =
  convert {| plugin_manager := pm; metadata_extractor := ex2 |} h input fmt opts s.
Proof.
  intros Hex.
  assert (Hm : forall buffer f s0,
    extract_metadata {| plugin_manager := pm; metadata_extractor := ex1 |} h
      (InBytes buffer) (Some f) s0 =
    extract_metadata {| plugin_manager := pm; metadata_extractor := ex2 |} h
      (InBytes buffer) (Some f) s0).
  { intros buffer f s0. unfold extract_metadata, mbind, _prepare_input, mret.
    cbn [fst snd].
    destruct (truthy (Some f)).
    - unfold lift. cbn. by rewrite Hex.
    - change (_detect_format {| plugin_manager := pm; metadata_extractor := ex1 |})
        with (_detect_format {| plugin_manager := pm; metadata_extractor := ex2 |}).
      destruct (_detect_format _ h buffer None s0) as [[d|e] s1]; [|done].
      unfold lift. cbn. by rewrite Hex. }
  unfold convert, try_except. cbv zeta.
  assert (Ht : forall o t0,
    convert_try {| plugin_manager := pm; metadata_extractor := ex1 |} h input fmt o t0 s =
    convert_try {| plugin_manager := pm; metadata_extractor := ex2 |} h input fmt o t0 s).
  { intros o t0. unfold convert_try, mbind.
    destruct (_prepare_input h input s) as [[[buffer path]|e] s1]; [|done].
    cbn [fst snd].
    change (_detect_format {| plugin_manager := pm; metadata_extractor := ex1 |})
      with (_detect_format {| plugin_manager := pm; metadata_extractor := ex2 |}).
    destruct (_detect_format _ h buffer path s1) as [[f|e] s2]; [|done].
    change (is_format_supported {| plugin_manager := pm; metadata_extractor := ex1 |})
      with (is_format_supported {| plugin_manager := pm; metadata_extractor := ex2 |}).
    destruct (negb _); [done|]. destruct (negb _); [done|].
    change (_execute_conversion {| plugin_manager := pm; metadata_extractor := ex1 |})
      with (_execute_conversion {| plugin_manager := pm; metadata_extractor := ex2 |}).
    destruct (co_metadata o); [|done].
    rewrite Hm. done. }
  by rewrite Ht.
Qed.

(** ** Detection *)

Lemma step_extension_registered ff h file_path ext :
  step_extension ff h file_path = Some ext -> is_format_supported ff ext DirInput = true.
Proof.
  unfold step_extension, registered. intros H.
  repeat case_match; simplify_eq. done.
Qed.

Lemma step_mime_registered ff h file_path ext :
  step_mime ff h file_path = Some ext -> is_format_supported ff ext DirInput = true.
Proof.
  unfold step_mime, registered. intros H.
  repeat case_match; simplify_eq. done.
Qed.

(** X15. A detected format is registered, unless it comes from sniffing the
    signature: only the sniffer can hand [convert] a format it will
    refuse as input. *)
Theorem detected_format_registered_or_sniffed ff h buffer file_path s f s' :
  _detect_format ff h buffer file_path s = (Ok f, s') ->
  is_format_supported ff f DirInput = true \/
  detect_format_by_signature h buffer = Ok f.
Proof.
  rewrite detect_format_unfold. unfold detect_spec, mret, of_outcome.
  destruct (step_extension ff h file_path) as [ext|] eqn:E1.
  { intros [= <- _]. left. by eapply step_extension_registered. }
  destruct (step_mime ff h file_path) as [ext|] eqn:E2.
  { intros [= <- _]. left. by eapply step_mime_registered. }
  intros [= -> _]. by right.
Qed.

(** ** The expected failures *)

(** Each expected failure is the exception the [try] block raises. *)
Lemma expected_failure_raised ff h input fmt o t0 s e s' :
  expected_failure ff h input fmt o s e s' ->
  convert_try ff h input fmt o t0 s = (Raise e, s').
Proof.
  intros [ p e0 w -> Hr
         | buffer path s1 e0 s2 H1 H2
         | buffer path s1 f s2 H1 H2 H3
         | buffer path s1 f s2 H1 H2 H3 H4
         | buffer path s1 f s2 md s3 H1 H2 H3 H4 H5 Hne Hfind
         | buffer path s1 f s2 md s3 p e0 w H1 H2 H3 H4 H5 Hne Hfind Hp
         | buffer path s1 s2 md s3 p e0 w H1 H2 H3 H4 H5 Hc Hfind Hp
         | buffer path s1 f s2 md s3 data s4 e0 s5 H1 H2 H3 H4 H5 Hx Hpers Hsave ].
  - by apply pipeline_read_error.
  - by eapply pipeline_detection_error.
  - by eapply pipeline_unsupported_input.
  - by eapply pipeline_unsupported_output.
  - rewrite (convert_try_from_execute _ _ _ _ _ _ _ _ _ _ _ _ _ _ H1 H2 H3 H4 H5).
    by rewrite execute_no_plugin.
  - rewrite (convert_try_from_execute _ _ _ _ _ _ _ _ _ _ _ _ _ _ H1 H2 H3 H4 H5).
    by rewrite (execute_plugin_error _ _ _ _ _ _ _ _ _ Hne Hfind Hp).
  - rewrite (convert_try_from_execute _ _ _ _ _ _ _ _ _ _ _ _ _ _ H1 H2 H3 H4 H5).
    unfold _execute_conversion, _optimize_file.
    rewrite String.eqb_refl, Hc, Hfind. unfold mbind, lift. by rewrite Hp.
  - rewrite (convert_try_from_execute _ _ _ _ _ _ _ _ _ _ _ _ _ _ H1 H2 H3 H4 H5).
    rewrite Hx. cbv zeta. by rewrite Hpers, Hsave.
Qed.

(** C1, as the code has it.  Each expected failure of a conversion
    (the file cannot be read, its format cannot be detected or is not
    supported as input, the output format is not supported, no plug-in
    converts the one into the other, the plug-in raises, the output
    cannot be written) ends in a result, not in an exception:
    [success = False], no data, and [errors] holding exactly [str(e)]
    for the exception [e] raised at the failing step.  For the engine's
    own checks that is the message naming the format; for a
    collaborator it is whatever message the exception carries. *)
Theorem convert_reports_expected_failures ff h input fmt opts s e s' :
  expected_failure ff h input fmt (effective opts fmt) s e s' ->
  exists r,
    convert ff h input fmt opts s = (Ok r, effective opts fmt, s') /\
    cr_success r = false /\
    cr_data r = None /\
    cr_errors r = [exn_str e].
Proof.
  intros Hf. eexists. split.
  - apply convert_of_raise, expected_failure_raised, Hf.
  - done.
Qed.

End SingleConversion.

(** * Further properties of batches *)

Section Batches.

Context {PyAny MetadataResult World : Type}.

Implicit Types (ff : @FileForge PyAny MetadataResult World) (h : @Host World).
Implicit Types (s : @state World) (o : @ConversionOptions PyAny).
Implicit Types (r : @ConversionResult MetadataResult).
Implicit Types (bs : @batch_state PyAny World).
Implicit Types (bo : @BatchConversionOptions PyAny World).

(** The options [convert_batch] works with. *)
Local Abbreviation used options := (default BatchConversionOptions_default options).

(** ** Batches, task by task *)

(** The options object once a task has passed it to [convert]. *)
Local Abbreviation touched bo fmt :=
  (set_base bo (set_output_format (bo_base bo) (Some fmt))).

(** The progress callback, if there is one, never raises. *)
Local Abbreviation progress_safe bo :=
  (match bo_on_progress bo with
   | Some cb => forall current total file_path w,
                  exists w', cb current total file_path w = (Ok tt, w')
   | None => True
   end).

(** All there is to say of one task. *)
Lemma convert_file_body_spec ff h fmt total results file bs x bs' :
  convert_file_body ff h fmt total results file bs = (x, bs') ->
  exists res s1 evs errs,
    convert ff h (InPath file) fmt (Some (bo_base (bs_options bs))) (bs_state bs)
      = (Ok res, set_output_format (bo_base (bs_options bs)) (Some fmt), s1) /\
    bs_options bs' = touched (bs_options bs) fmt /\
    bs_semaphore bs' = bs_semaphore bs /\
    st_log (bs_state bs') = (st_log (bs_state bs) ++ evs)%list /\
    bs_errors bs' = (bs_errors bs ++ errs)%list /\
    progress_args evs = match bo_on_progress (bs_options bs) with Some _ => [(total, file)] | None => [] end /\
    error_calls evs = match bo_on_error (bs_options bs) with Some _ => errs | None => [] end /\
    ((as_result x = Some res /\ errs = []) \/
     (as_result x = None /\
      exists msg, errs = [{| ee_file := file; ee_error := msg |}])) /\
    (progress_safe (bs_options bs) -> errs = []).
Proof.
  unfold convert_file_body, try_except, mbind, call_convert.
  destruct (convert_total ff h (InPath file) fmt (Some (bo_base (bs_options bs)))
              (bs_state bs)) as (res & s1 & Hc).
  rewrite Hc. pose proof (convert_log _ _ _ _ _ _ _ _ _ Hc) as Hlog.
  cbn [default from_option id] in Hc.
  unfold gets, call_on_progress, call_on_error, errors_append, modify, lift_state,
    mbind, log, modify, lift, mret, raise.
  cbn.
  destruct (bo_on_progress (bs_options bs)) as [cb|] eqn:Ecb.
  2:{ intros [= <- <-]. exists res, s1, [], []. cbn. rewrite !app_nil_r.
      repeat split; auto. by destruct (bo_on_error (bs_options bs)). }
  cbn.
  destruct (cb (length results + 1)%nat total file (st_world s1)) as [[[]|e] w] eqn:Er.
  { cbn. intros [= <- <-]. exists res, s1, [EvProgress (length results + 1) total file], [].
    cbn. rewrite !app_nil_r, Hlog. repeat split; auto.
    by destruct (bo_on_error (bs_options bs)). }
  cbn.
  assert (Hunsafe : ~ (forall current total file_path w,
                         exists w', cb current total file_path w = (Ok tt, w'))).
  { intros Hsafe.
    destruct (Hsafe (length results + 1)%nat total file (st_world s1)) as (w' & Hw).
    congruence. }
  destruct (bo_on_error (bs_options bs)) as [ce|] eqn:Ece; cbn.
  - destruct (ce e file w) as [[[]|e2] w2] eqn:Ee; cbn;
      [destruct (bo_continue_on_error (bs_options bs)); cbn|];
      intros [= <- <-];
      exists res, s1,
        [EvProgress (length results + 1) total file; EvError e file],
        [{| ee_file := file; ee_error := exn_str e |}];
      cbn; rewrite Hlog, <- app_assoc;
      (repeat split; eauto; try done); intros Hs; destruct (Hunsafe Hs).
  - destruct (bo_continue_on_error (bs_options bs)); cbn; intros [= <- <-];
      exists res, s1, [EvProgress (length results + 1) total file],
        [{| ee_file := file; ee_error := exn_str e |}];
      cbn; rewrite Hlog;
      (repeat split; eauto; try done); intros Hs; destruct (Hunsafe Hs).
Qed.

(** The same, for the task behind its semaphore. *)
Lemma convert_file_spec ff h fmt total results file bs x bs' :
  convert_file ff h fmt total results file bs = Some (x, bs') ->
  exists res s1 evs errs,
    convert ff h (InPath file) fmt (Some (bo_base (bs_options bs))) (bs_state bs)
      = (Ok res, set_output_format (bo_base (bs_options bs)) (Some fmt), s1) /\
    bs_options bs' = touched (bs_options bs) fmt /\
    bs_semaphore bs' = bs_semaphore bs /\
    st_log (bs_state bs') = (st_log (bs_state bs) ++ evs)%list /\
    bs_errors bs' = (bs_errors bs ++ errs)%list /\
    progress_args evs =
      match bo_on_progress (bs_options bs) with Some _ => [(total, file)] | None => [] end /\
    error_calls evs =
      match bo_on_error (bs_options bs) with Some _ => errs | None => [] end /\
    ((as_result x = Some res /\ errs = []) \/
     (as_result x = None /\
      exists msg, errs = [{| ee_file := file; ee_error := msg |}])) /\
    (progress_safe (bs_options bs) -> errs = []).
Proof.
  unfold convert_file, with_semaphore.
  destruct (0 <? bs_semaphore bs); [|discriminate].
  destruct (convert_file_body _ _ _ _ _ _ _) as [y bs0] eqn:E.
  intros [= <- <-].
  apply convert_file_body_spec in E
    as (res & s1 & evs & errs & Hc & Ho & Hs & Hl & He & Hp & Hec & Hx & Hsafe).
  cbn in *. exists res, s1, evs, errs. repeat split; try done. lia.
Qed.

(** What [convert] returns is well shaped and names the requested
    format. *)
Lemma convert_result_ok ff h input fmt opts s r o' s' :
  convert ff h input fmt opts s = (Ok r, o', s') ->
  shape_invariant r /\ cr_output_format r = fmt.
Proof.
  rewrite convert_run. cbv zeta.
  destruct (convert_try _ _ _ _ _ _ _) as [[r0|e] s0] eqn:E.
  - intros [= <- _ _]. apply convert_try_ok in E as (Hs & Hd & _ & _ & Hf).
    split; [|done]. split; [congruence | by left].
  - destruct (convert_except_run (MetadataResult:=MetadataResult) h fmt
                (clock h (st_world s)) e s0)
      as (r1 & -> & Hs & Hd & _ & He & _ & Hf).
    intros [= <- _ _]. split; [|done].
    split; [intros _; by rewrite Hd, He | congruence].
Qed.

(** All there is to say of the tasks of a batch together. *)
Lemma gather_spec ff h fmt total files bs xs bs' :
  gather (map (convert_file ff h fmt total []) files) bs = Some (xs, bs') ->
  exists evs errs,
    bs_options bs' =
      match files with [] => bs_options bs | _ :: _ => touched (bs_options bs) fmt end /\
    st_log (bs_state bs') = (st_log (bs_state bs) ++ evs)%list /\
    bs_errors bs' = (bs_errors bs ++ errs)%list /\
    progress_args evs =
      match bo_on_progress (bs_options bs) with
      | Some _ => map (fun file => (total, file)) files
      | None => []
      end /\
    error_calls evs =
      match bo_on_error (bs_options bs) with Some _ => errs | None => [] end /\
    sublist (map ee_file errs) files /\
    (progress_safe (bs_options bs) -> errs = []) /\
    Forall (fun r => shape_invariant r /\ cr_output_format r = fmt)
           (omap as_result xs).
Proof.
  revert bs xs bs'. induction files as [|file files IH]; intros bs xs bs'; cbn [map gather].
  - intros [= <- <-]. exists [], []. rewrite !app_nil_r. cbn.
    repeat split; try done.
    + by destruct (bo_on_progress (bs_options bs)).
    + by destruct (bo_on_error (bs_options bs)).
  - destruct (convert_file _ _ _ _ _ _ _) as [[x bs1]|] eqn:E1; [|discriminate].
    destruct (gather _ _) as [[rs bs2]|] eqn:E2; [|discriminate].
    intros [= <- <-].
    apply convert_file_spec in E1
      as (res & s1 & evs1 & errs1 & Hc & Ho1 & _ & Hl1 & He1 & Hp1 & Hec1 & Hx & Hsafe1).
    apply IH in E2 as (evs2 & errs2 & Ho2 & Hl2 & He2 & Hp2 & Hec2 & Hsub & Hsafe2 & Hall).
    rewrite Ho1 in *. cbn [bo_on_progress bo_on_error set_base] in *.
    exists (evs1 ++ evs2)%list, (errs1 ++ errs2)%list.
    split. { rewrite Ho2. by destruct files. }
    split. { by rewrite Hl2, Hl1, app_assoc. }
    split. { by rewrite He2, He1, app_assoc. }
    split. { unfold progress_args in *. rewrite omap_app, Hp1, Hp2.
             by destruct (bo_on_progress (bs_options bs)). }
    split. { unfold error_calls in *. rewrite omap_app, Hec1, Hec2.
             by destruct (bo_on_error (bs_options bs)). }
    split. { rewrite map_app.
             destruct Hx as [(_ & ->) | (_ & msg & ->)]; cbn.
             - by apply sublist_cons.
             - by apply sublist_skip. }
    split. { intros Hs. by rewrite Hsafe1, Hsafe2. }
    cbn. destruct Hx as [(Hx & _) | (Hx & _)]; rewrite Hx; [|done].
    constructor; [|done]. eapply convert_result_ok, Hc.
Qed.

(** The loop over the patterns builds the list of matched files. *)
Lemma files_matched h patterns (w : World) :
  fold_left (fun files pattern => (files ++ glob_glob h pattern w)%list)
            (patterns_list patterns) [] = matched_files h patterns w.
Proof.
  unfold matched_files.
  assert (H : forall ps acc,
    fold_left (fun files pattern => (files ++ glob_glob h pattern w)%list) ps acc =
    (acc ++ concat (map (fun pattern => glob_glob h pattern w) ps))%list).
  { induction ps as [|p ps IH]; intros acc; cbn.
    - by rewrite app_nil_r.
    - by rewrite IH, app_assoc. }
  apply H.
Qed.

(** What a batch that returns an aggregate did. *)
Lemma convert_batch_spec ff h patterns fmt options s b bo s' :
  convert_batch ff h patterns fmt options s = Some (Ok b, bo, s') ->
  let opts := default BatchConversionOptions_default options in
  let files := matched_files h patterns (st_world s) in
  exists evs,
    br_total_files b = length files /\
    bo = match files with [] => opts | _ :: _ => touched opts fmt end /\
    st_log s' = (st_log s ++ evs)%list /\
    progress_args evs =
      match bo_on_progress opts with
      | Some _ => map (fun file => (length files, file)) files
      | None => []
      end /\
    error_calls evs =
      match bo_on_error opts with Some _ => br_errors b | None => [] end /\
    sublist (map ee_file (br_errors b)) files /\
    (progress_safe opts -> br_errors b = []) /\
    Forall (fun r => shape_invariant r /\ cr_output_format r = fmt) (br_results b).
Proof.
  unfold convert_batch. rewrite files_matched.
  destruct (Semaphore _) as [sem|e]; [|discriminate].
  destruct (gather _ _) as [[xs bs']|] eqn:E; [|discriminate].
  intros [= <- <- <-]. cbv zeta. cbn [br_total_files br_errors br_results].
  apply gather_spec in E as (evs & errs & Ho & Hl & He & Hp & Hec & Hsub & Hsafe & Hall).
  cbn in *. subst. exists evs. repeat split; try done.
Qed.

(** ** Batches, as a whole *)

(** X16. Conversion failures are never counted as errors: as long as the
    progress callback (if any) does not raise, the [errors] list stays
    empty, the error callback is never called, and every matched file
    has its result. *)
Theorem batch_errors_only_from_progress ff h patterns fmt options s b bo s' :
  match bo_on_progress (used options) with
  | Some cb => forall current total file_path w,
                 exists w', cb current total file_path w = (Ok tt, w')
  | None => True
  end ->
  convert_batch ff h patterns fmt options s = Some (Ok b, bo, s') ->
  br_errors b = [] /\
  br_error_count b = 0%nat /\
  length (br_results b) = br_total_files b /\
  exists evs, st_log s' = (st_log s ++ evs)%list /\ error_calls evs = [].
Proof.
  intros Hsafe Hrun.
  destruct (convert_batch_spec _ _ _ _ _ _ _ _ _ Hrun)
    as (evs & _ & _ & Hl & _ & Hec & _ & He & _).
  apply convert_batch_inv in Hrun as (_ & _ & Hcount & Hsum).
  specialize (He Hsafe). rewrite He in *. cbn in Hcount.
  repeat split; try done; [lia|].
  exists evs. split; [done|]. rewrite Hec. by destruct (bo_on_error _).
Qed.

(** X17. The progress callback is called exactly once for every matched
    file (as many times as the file is matched), each time with
    [total_files] as the total; without a callback nothing is called.
    Nothing is said of the order of the calls. *)
Theorem progress_called_once_per_file ff h patterns fmt options s b bo s' :
  convert_batch ff h patterns fmt options s = Some (Ok b, bo, s') ->
  exists evs,
    st_log s' = (st_log s ++ evs)%list /\
    progress_args evs ≡ₚ
      match bo_on_progress (used options) with
      | Some _ => map (fun file => (br_total_files b, file))
                      (matched_files h patterns (st_world s))
      | None => []
      end.
Proof.
  intros Hrun.
  destruct (convert_batch_spec _ _ _ _ _ _ _ _ _ Hrun)
    as (evs & Ht & _ & Hl & Hp & _).
  exists evs. split; [done|]. by rewrite Hp, Ht.
Qed.

(** X18. The error callback is called exactly once for every entry of
    [errors], in order, with the file and the exception of the entry. *)
Theorem error_callback_called_once_per_error ff h patterns fmt options s b bo s' :
  convert_batch ff h patterns fmt options s = Some (Ok b, bo, s') ->
  exists evs,
    st_log s' = (st_log s ++ evs)%list /\
    error_calls evs =
      match bo_on_error (used options) with
      | Some _ => br_errors b
      | None => []
      end.
Proof.
  intros Hrun.
  destruct (convert_batch_spec _ _ _ _ _ _ _ _ _ Hrun)
    as (evs & _ & _ & Hl & _ & Hec & _).
  exists evs. done.
Qed.

(** X19. The entries of [errors] name matched files, no file more often
    than it is matched.  Nothing is said of their order. *)
Theorem batch_errors_name_matched_files ff h patterns fmt options s b bo s' :
  convert_batch ff h patterns fmt options s = Some (Ok b, bo, s') ->
  map ee_file (br_errors b) ⊆+ matched_files h patterns (st_world s).
Proof.
  intros Hrun.
  destruct (convert_batch_spec _ _ _ _ _ _ _ _ _ Hrun)
    as (evs & _ & _ & _ & _ & _ & Hsub & _).
  by apply sublist_submseteq.
Qed.

(** X20. Every result of a batch is well shaped and names the requested
    output format. *)
Theorem batch_results_well_shaped ff h patterns fmt options s b bo s' :
  convert_batch ff h patterns fmt options s = Some (Ok b, bo, s') ->
  Forall (fun r => shape_invariant r /\ cr_output_format r = fmt) (br_results b).
Proof.
  intros Hrun.
  by destruct (convert_batch_spec _ _ _ _ _ _ _ _ _ Hrun)
    as (evs & _ & _ & _ & _ & _ & _ & _ & Hall).
Qed.

(** X22. When the call returns: a negative [max_concurrency] makes the
    semaphore raise before any file is touched; with 0 and at least one
    matched file every task waits for ever; in all other cases the
    call returns an aggregate. *)
Theorem convert_batch_termination ff h patterns fmt options s :
  if bo_max_concurrency (used options) <? 0 then
    convert_batch ff h patterns fmt options s =
    Some (Raise (MkExn ValueError "Semaphore initial value must be >= 0"),
          used options, s)
  else if (bo_max_concurrency (used options) =? 0) &&
          negb (Nat.eqb (glob_matches h (patterns_list patterns) (st_world s)) 0)
  then convert_batch ff h patterns fmt options s = None
  else exists b bo s', convert_batch ff h patterns fmt options s = Some (Ok b, bo, s').
Proof.
  pose proof (convert_batch_total ff h patterns fmt options s) as Htotal.
  assert (Hg : glob_matches h (patterns_list patterns) (st_world s) =
               length (fold_left
                 (fun files pattern => (files ++ glob_glob h pattern (st_world s))%list)
                 (patterns_list patterns) [])).
  { unfold glob_matches. rewrite files_length. cbn. lia. }
  rewrite Hg. unfold convert_batch, Semaphore. cbv zeta.
  remember (bo_max_concurrency (used options)) as mc eqn:Emc.
  destruct (mc <? 0) eqn:Eneg; [done|].
  apply Z.ltb_ge in Eneg.
  destruct (mc =? 0) eqn:Ezero; cbn [andb].
  2:{ apply Z.eqb_neq in Ezero.
      unfold convert_batch, Semaphore in Htotal. cbv zeta in Htotal.
      rewrite <- Emc in Htotal.
      assert (E : (mc <? 0) = false) by (apply Z.ltb_ge; lia).
      rewrite E in Htotal. apply Htotal. lia. }
  apply Z.eqb_eq in Ezero. subst mc. rewrite Ezero.
  destruct (fold_left _ (patterns_list patterns) []) as [|file files].
  - cbn. eauto.
  - cbn [length Nat.eqb negb map gather].
    unfold convert_file at 1, with_semaphore. cbn. done.
Qed.

(** X23. No pattern matches anything: the aggregate is all zeros, no
    callback is called and the state is as it was. *)
Theorem empty_batch ff h patterns fmt options s :
  glob_matches h (patterns_list patterns) (st_world s) = 0%nat ->
  0 <= bo_max_concurrency (used options) ->
  convert_batch ff h patterns fmt options s =
  Some (Ok {| br_total_files := 0; br_success_count := 0; br_error_count := 0;
              br_results := []; br_errors := []; br_total_time := 0 |},
        used options, s).
Proof.
  intros Hm Hmax. unfold convert_batch, Semaphore. cbv zeta.
  destruct (_ <? 0) eqn:E; [apply Z.ltb_lt in E; lia|].
  assert (Hlen : length (fold_left
                 (fun files pattern => (files ++ glob_glob h pattern (st_world s))%list)
                 (patterns_list patterns) []) = 0%nat).
  { rewrite files_length. unfold glob_matches in Hm. cbn. lia. }
  apply nil_length_inv in Hlen. rewrite Hlen.
  cbn. by rewrite Z.sub_diag.
Qed.

(** ** The [continue_on_error] flag *)

(** The shared variables, with the flag of the options object set. *)
Local Abbreviation flagged c bs :=
  {| bs_state := bs_state bs;
     bs_options := set_continue_on_error (bs_options bs) c;
     bs_errors := bs_errors bs;
     bs_semaphore := bs_semaphore bs |}.

(** A task does the same to the shared variables whatever the flag;
    only whether it ends by raising or by returning [None] differs. *)
Lemma convert_file_body_flag ff h fmt total results file c bs :
  exists x2,
    convert_file_body ff h fmt total results file (flagged c bs) =
    (x2, flagged c (snd (convert_file_body ff h fmt total results file bs))) /\
    as_result x2 = as_result (fst (convert_file_body ff h fmt total results file bs)).
Proof.
  unfold convert_file_body, try_except, mbind, call_convert.
  cbn [bs_options bs_state bo_base set_continue_on_error].
  destruct (convert_total ff h (InPath file) fmt (Some (bo_base (bs_options bs)))
              (bs_state bs)) as (res & s1 & ->).
  unfold gets, call_on_progress, call_on_error, errors_append, modify, lift_state,
    mbind, log, modify, lift, mret, raise.
  cbn.
  destruct (bo_on_progress (bs_options bs)) as [cb|]; cbn;
    [|eexists; split; reflexivity].
  destruct (cb (length results + 1)%nat total file (st_world s1)) as [[[]|e] w];
    cbn; [eexists; split; reflexivity|].
  destruct (bo_on_error (bs_options bs)) as [ce|]; cbn.
  - destruct (ce e file w) as [[[]|e2] w2]; cbn; [|eexists; split; reflexivity].
    destruct c, (bo_continue_on_error (bs_options bs)); cbn;
      eexists; split; reflexivity.
  - destruct c, (bo_continue_on_error (bs_options bs)); cbn;
      eexists; split; reflexivity.
Qed.

Lemma convert_file_flag ff h fmt total results file c bs :
  (convert_file ff h fmt total results file bs = None /\
   convert_file ff h fmt total results file (flagged c bs) = None) \/
  (exists x1 bs1 x2,
     convert_file ff h fmt total results file bs = Some (x1, bs1) /\
     convert_file ff h fmt total results file (flagged c bs) = Some (x2, flagged c bs1) /\
     as_result x2 = as_result x1).
Proof.
  unfold convert_file, with_semaphore. cbn [bs_semaphore].
  destruct (0 <? bs_semaphore bs); [right|by left].
  destruct (convert_file_body_flag ff h fmt total results file c
              (set_semaphore bs (bs_semaphore bs - 1))) as (x2 & E2 & Hx).
  change (set_semaphore (flagged c bs) (bs_semaphore bs - 1))
    with (flagged c (set_semaphore bs (bs_semaphore bs - 1))).
  rewrite E2.
  destruct (convert_file_body ff h fmt total results file
              (set_semaphore bs (bs_semaphore bs - 1))) as [x1 bs1].
  cbn [fst snd] in *. exists x1. eexists. exists x2.
  split; [reflexivity|]. split; [reflexivity|]. exact Hx.
Qed.

Lemma gather_flag ff h fmt total results files c bs :
  (gather (map (convert_file ff h fmt total results) files) bs = None /\
   gather (map (convert_file ff h fmt total results) files) (flagged c bs) = None) \/
  (exists xs1 bs1 xs2,
     gather (map (convert_file ff h fmt total results) files) bs = Some (xs1, bs1) /\
     gather (map (convert_file ff h fmt total results) files) (flagged c bs)
       = Some (xs2, flagged c bs1) /\
     omap as_result xs2 = omap as_result xs1).
Proof.
  revert bs. induction files as [|file files IH]; intros bs; cbn [map gather].
  - right. exists [], bs, []. done.
  - destruct (convert_file_flag ff h fmt total results file c bs)
      as [[-> ->] | (x1 & bs1 & x2 & -> & -> & Hx)]; [by left|].
    destruct (IH bs1) as [[-> ->] | (xs1 & bs2 & xs2 & -> & -> & Hxs)]; [by left|].
    right. exists (x1 :: xs1), bs2, (x2 :: xs2).
    split; [done|]. split; [done|]. cbn. by rewrite Hx, Hxs.
Qed.

(** X24. Setting or clearing [continue_on_error] changes nothing in what a
    batch returns or does: the same aggregate (or the same exception),
    the same state, the same calls of the callbacks. *)
Theorem continue_on_error_ignored ff h patterns fmt bo c s :
  match convert_batch ff h patterns fmt (Some bo) s,
        convert_batch ff h patterns fmt (Some (set_continue_on_error bo c)) s with
  | Some (x1, bo1, s1), Some (x2, bo2, s2) =>
      x2 = x1 /\ s2 = s1 /\ bo2 = set_continue_on_error bo1 c
  | None, None => True
  | _, _ => False
  end.
Proof.
  unfold convert_batch. cbv zeta.
  cbn [default from_option id bo_max_concurrency set_continue_on_error].
  destruct (Semaphore (bo_max_concurrency bo)) as [sem|e]; [|done].
  match goal with
  | |- context [gather (map (convert_file ff h fmt ?total ?results) ?files)
                  {| bs_state := s; bs_options := bo;
                     bs_errors := []; bs_semaphore := sem |}] =>
      destruct (gather_flag ff h fmt total results files c
                  {| bs_state := s; bs_options := bo;
                     bs_errors := []; bs_semaphore := sem |})
        as [[H1 H2] | (xs1 & bs1 & xs2 & H1 & H2 & Hxs)]
  end; cbn [bs_state bs_options bs_errors bs_semaphore] in H2; rewrite H1, H2.
  - done.
  - cbn. by rewrite Hxs.
Qed.

End Batches.

(** * The options object, shared with the plug-ins *)

Section SharedOptionsProperties.

Context {PyAny MetadataResult World : Type}.

Implicit Types (h : @Host World) (s : @state (@Shared PyAny World)).
Implicit Types (o : @ConversionOptions PyAny).
Implicit Types (plugins : list (@Plugin PyAny (@Shared PyAny World))).
Implicit Types (extract : bytes -> string -> option string -> M World MetadataResult).

(** A computation of the engine that leaves the options object as it
    found it, however it ends. *)
Local Abbreviation keeps_options c :=
  (forall s x s', c s = (x, s') ->
     sh_options (st_world s') = sh_options (st_world s)).

Lemma beside_leaves_options {A} (c : M World A) :
  leaves_options (PyAny:=PyAny) (beside c).
Proof. intros sh. unfold beside. by destruct (c (sh_world sh)). Qed.

Lemma options_kept_mret {A} (a : A) :
  keeps_options (mret (S:=@state (@Shared PyAny World)) a).
Proof. intros s x s' [= _ <-]. reflexivity. Qed.

Lemma options_kept_raise {A} e :
  keeps_options (raise (S:=@state (@Shared PyAny World)) (A:=A) e).
Proof. intros s x s' [= _ <-]. reflexivity. Qed.

Lemma options_kept_gets {A} (f : @state (@Shared PyAny World) -> A) :
  keeps_options (gets f).
Proof. intros s x s' [= _ <-]. reflexivity. Qed.

Lemma options_kept_lift {A} (c : M (@Shared PyAny World) A) :
  leaves_options c -> keeps_options (lift c).
Proof.
  intros Hc s x s'. unfold lift. specialize (Hc (st_world s)).
  destruct (c (st_world s)) as [y w]. intros [= _ <-]. exact Hc.
Qed.

Lemma options_kept_bind {A B} (c : M (@state (@Shared PyAny World)) A)
    (k : A -> M (@state (@Shared PyAny World)) B) :
  keeps_options c -> (forall a, keeps_options (k a)) -> keeps_options (mbind c k).
Proof.
  intros Hc Hk s x s'. unfold mbind.
  destruct (c s) as [[a|e] s1] eqn:E.
  - intros H. rewrite (Hk _ _ _ _ H). eapply Hc, E.
  - intros [= _ <-]. eapply Hc, E.
Qed.

Lemma options_kept_prepare_input h input :
  keeps_options (_prepare_input (shared_host h) input).
Proof.
  destruct input as [b|p|]; cbn.
  - apply options_kept_mret.
  - apply options_kept_bind; [|intros ?; apply options_kept_mret].
    apply options_kept_lift, beside_leaves_options.
  - apply options_kept_raise.
Qed.

Lemma options_kept_detect_format (ff : @FileForge PyAny MetadataResult Shared)
    (h' : @Host Shared) buffer path :
  keeps_options (_detect_format ff h' buffer path).
Proof.
  intros s x s' H.
  destruct (detect_format_pure ff h' buffer path s) as (y & Hy).
  rewrite Hy in H. by simplify_eq.
Qed.

Lemma options_kept_extract_metadata plugins extract h input hint :
  keeps_options (extract_metadata (shared_forge plugins extract) (shared_host h)
                   input hint).
Proof.
  unfold extract_metadata.
  apply options_kept_bind; [apply options_kept_prepare_input|intros ?].
  apply options_kept_bind.
  - destruct (truthy hint); [apply options_kept_mret|apply options_kept_detect_format].
  - intros ?. apply options_kept_lift, beside_leaves_options.
Qed.

Lemma options_kept_as_bytes (x0 : @PluginOutput) :
  keeps_options (as_bytes (World:=@Shared PyAny World) x0).
Proof.
  destruct x0; cbn; [apply options_kept_mret .. | apply options_kept_raise].
Qed.

(** A plug-in the registry hands out is a registered one. *)
Lemma find_plugin_registered (ff : @FileForge PyAny MetadataResult (@Shared PyAny World))
    f fmt p :
  find_plugin ff f fmt = Some p -> In p (plugin_manager ff).
Proof. unfold find_plugin. intros H. by apply find_some in H as [? _]. Qed.

Lemma options_kept_execute_conversion plugins extract buffer f fmt o :
  (forall p, In p plugins -> forall data o', leaves_options (pl_convert p data o')) ->
  keeps_options (_execute_conversion (shared_forge plugins extract) buffer f fmt o).
Proof.
  intros Hp. unfold _execute_conversion, _optimize_file.
  destruct (String.eqb f fmt).
  - destruct (String.eqb _ "none"); [apply options_kept_mret|].
    destruct (find_plugin _ fmt fmt) as [p|] eqn:E; [|apply options_kept_mret].
    apply find_plugin_registered in E.
    apply options_kept_bind; [|intros ?; apply options_kept_as_bytes].
    apply options_kept_lift, Hp, E.
  - destruct (find_plugin _ f fmt) as [p|] eqn:E; [|apply options_kept_raise].
    apply find_plugin_registered in E.
    apply options_kept_bind; [|intros ?; apply options_kept_as_bytes].
    apply options_kept_lift, Hp, E.
Qed.

Lemma options_kept_save_output h data fmt o path :
  keeps_options (_save_output (shared_host h) data fmt o path).
Proof.
  unfold _save_output.
  apply options_kept_bind; [apply options_kept_lift, beside_leaves_options|intros ?].
  apply options_kept_bind; [apply options_kept_lift, beside_leaves_options|intros ?].
  apply options_kept_mret.
Qed.

Lemma options_kept_convert_try plugins extract h input fmt t0 :
  (forall p, In p plugins -> forall data o, leaves_options (pl_convert p data o)) ->
  keeps_options (convert_try_shared (shared_forge plugins extract) (shared_host h)
                   input fmt t0).
Proof.
  intros Hp. unfold convert_try_shared.
  apply options_kept_bind; [apply options_kept_prepare_input|intros ?].
  apply options_kept_bind; [apply options_kept_detect_format|intros ?].
  destruct (negb _); [apply options_kept_raise|].
  destruct (negb _); [apply options_kept_raise|].
  apply options_kept_bind; [apply options_kept_gets|intros o1].
  apply options_kept_bind.
  { destruct (co_metadata o1); [|apply options_kept_mret].
    apply options_kept_bind; [apply options_kept_extract_metadata|].
    intros ?. apply options_kept_mret. }
  intros ?.
  apply options_kept_bind; [apply options_kept_gets|intros o2].
  apply options_kept_bind; [by apply options_kept_execute_conversion|intros ?].
  apply options_kept_bind; [apply options_kept_gets|intros ?].
  apply options_kept_bind; [apply options_kept_gets|intros o3].
  destruct (_ || _); [|apply options_kept_mret].
  apply options_kept_bind; [apply options_kept_save_output|].
  intros ?. apply options_kept_mret.
Qed.

(** What a call does to the options object, when no plug-in writes to
    it: the assignment of [convert] is all that happened. *)
Lemma shared_options_after_call plugins extract h input fmt s :
  (forall p, In p plugins -> forall data o, leaves_options (pl_convert p data o)) ->
  exists r s',
    convert_shared (shared_forge plugins extract) (shared_host h) input fmt s
      = (Ok r, s') /\
    sh_options (st_world s') = set_output_format (sh_options (st_world s)) (Some fmt).
Proof.
  intros Hp. unfold convert_shared, mbind, assign_output_format, modify, try_except.
  cbv zeta.
  match goal with
  | |- context [convert_try_shared ?ff ?h' input fmt ?t0 ?s0] =>
      destruct (convert_try_shared ff h' input fmt t0 s0) as [[r|e] s1] eqn:E
  end; apply options_kept_convert_try in E; try exact Hp; cbn in E.
  - by exists r, s1.
  - eexists _, s1. split; [reflexivity|]. exact E.
Qed.

(** C10, as the code has it.  A call of [convert] writes the requested
    output format into the [output_format] field of the caller's
    options object; if no registered plug-in writes to the object it
    is passed, every other field is after the call what it was
    before. *)
Theorem convert_shared_options_frame plugins extract h input fmt s :
  (forall p, In p plugins -> forall data o, leaves_options (pl_convert p data o)) ->
  exists r s',
    convert_shared (shared_forge plugins extract) (shared_host h) input fmt s
      = (Ok r, s') /\
    let o := sh_options (st_world s) in
    let o' := sh_options (st_world s') in
    co_output_format o' = Some fmt /\
    co_output_dir o' = co_output_dir o /\
    co_output_name o' = co_output_name o /\
    co_compression o' = co_compression o /\
    co_quality o' = co_quality o /\
    co_ocr o' = co_ocr o /\
    co_ocr_language o' = co_ocr_language o /\
    co_metadata o' = co_metadata o /\
    co_streaming o' = co_streaming o /\
    co_buffer_size o' = co_buffer_size o /\
    co_format_options o' = co_format_options o /\
    co_ai o' = co_ai o /\
    co_tts o' = co_tts o /\
    co_image o' = co_image o /\
    co_video o' = co_video o /\
    co_audio o' = co_audio o /\
    co_debug o' = co_debug o /\
    co_plugin o' = co_plugin o.
Proof.
  intros Hp.
  destruct (shared_options_after_call plugins extract h input fmt s Hp)
    as (r & s' & Hrun & Ho).
  exists r, s'. split; [exact Hrun|]. cbv zeta. rewrite Ho. cbn. repeat split.
Qed.

End SharedOptionsProperties.

(** ** Plug-ins that only read their options *)

Section ReadingOnly.

Context {PyAny MetadataResult World : Type}.

Implicit Types (ff : @FileForge PyAny MetadataResult World) (h : @Host World).
Implicit Types (s : @state World) (o : @ConversionOptions PyAny).

(** The engine of the shared model that has the plug-ins of [ff], none
    of which writes to the options. *)
Local Abbreviation shared ff :=
  (shared_forge (map reading_only (plugin_manager ff)) (metadata_extractor ff)).

(** [c'] does next to the object [o] what [c] does without it. *)
Local Abbreviation simulates o c' c :=
  (forall s, c' (sharing o s) = match c s with (x, s') => (x, sharing o s') end).

Lemma simulates_bind {A B} o
    (c' : M (@state (@Shared PyAny World)) A) (c : M (@state World) A)
    (k' : A -> M (@state (@Shared PyAny World)) B) (k : A -> M (@state World) B) :
  simulates o c' c -> (forall a, simulates o (k' a) (k a)) ->
  simulates o (mbind c' k') (mbind c k).
Proof.
  intros Hc Hk s. unfold mbind. rewrite Hc.
  destruct (c s) as [[a|e] s1]; [apply Hk|reflexivity].
Qed.

Lemma simulates_lift {A} o (c : M World A) :
  simulates o (lift (beside (PyAny:=PyAny) c)) (lift c).
Proof.
  intros s. unfold lift, beside. cbn. by destruct (c (st_world s)).
Qed.

Lemma shared_is_format_supported ff f d :
  is_format_supported (shared ff) f d = is_format_supported ff f d.
Proof.
  unfold is_format_supported. cbn.
  induction (plugin_manager ff) as [|p ps IH]; [done|].
  cbn. rewrite IH. by destruct d.
Qed.

Lemma shared_find_plugin ff f fmt :
  find_plugin (shared ff) f fmt = option_map reading_only (find_plugin ff f fmt).
Proof.
  unfold find_plugin. cbn.
  induction (plugin_manager ff) as [|p ps IH]; [done|].
  cbn. change (can_convert (reading_only p) f fmt) with (can_convert p f fmt).
  by destruct (can_convert p f fmt).
Qed.

Lemma simulates_prepare_input o h input :
  simulates o (_prepare_input (shared_host h) input) (_prepare_input h input).
Proof.
  destruct input as [b|p|]; cbn; [done| |done].
  apply simulates_bind; [apply simulates_lift|done].
Qed.

Lemma simulates_detect_format o ff h buffer path :
  simulates o (_detect_format (shared ff) (shared_host h) buffer path)
              (_detect_format ff h buffer path).
Proof.
  intros s. rewrite !detect_format_unfold.
  unfold detect_spec, step_extension, step_mime, mime_probe, registered.
  cbn [shared_host path_suffix str_lower guess_type guess_extension
       detect_format_by_signature].
  destruct (given_hint path) as [p|].
  - destruct (str_truthy _); [rewrite shared_is_format_supported|].
    1: destruct (is_format_supported ff _ DirInput); [done|].
    all: destruct (guess_type h _) as [m|]; [|done].
    all: destruct (str_truthy m); [|done].
    all: destruct (guess_extension h m) as [e|]; [|done].
    all: destruct (str_truthy e); [|done].
    all: rewrite shared_is_format_supported.
    all: by destruct (is_format_supported ff _ DirInput).
  - destruct (guess_type h _) as [m|]; [|done].
    destruct (str_truthy m); [|done].
    destruct (guess_extension h m) as [e|]; [|done].
    destruct (str_truthy e); [|done].
    rewrite shared_is_format_supported.
    by destruct (is_format_supported ff _ DirInput).
Qed.

Lemma simulates_extract_metadata o ff h input hint :
  simulates o (extract_metadata (shared ff) (shared_host h) input hint)
              (extract_metadata ff h input hint).
Proof.
  unfold extract_metadata.
  apply simulates_bind; [apply simulates_prepare_input|intros ?].
  apply simulates_bind.
  - destruct (truthy hint); [done|apply simulates_detect_format].
  - intros ?. apply (simulates_lift o).
Qed.

Lemma simulates_as_bytes o (x0 : @PluginOutput) :
  simulates o (as_bytes (World:=@Shared PyAny World) x0) (as_bytes (World:=World) x0).
Proof. by destruct x0. Qed.

Lemma simulates_execute_conversion o ff buffer f fmt o1 :
  simulates o (_execute_conversion (shared ff) buffer f fmt o1)
              (_execute_conversion ff buffer f fmt o1).
Proof.
  unfold _execute_conversion, _optimize_file.
  rewrite !shared_find_plugin.
  destruct (String.eqb f fmt).
  - destruct (String.eqb _ "none"); [done|].
    destruct (find_plugin ff fmt fmt) as [p|]; [|done]. cbn.
    apply simulates_bind; [apply (simulates_lift o)|intros ?; apply simulates_as_bytes].
  - destruct (find_plugin ff f fmt) as [p|]; [|done]. cbn.
    apply simulates_bind; [apply (simulates_lift o)|intros ?; apply simulates_as_bytes].
Qed.

Lemma simulates_save_output o h data fmt o1 path :
  simulates o (_save_output (shared_host h) data fmt o1 path)
              (_save_output h data fmt o1 path).
Proof.
  unfold _save_output. cbn [shared_host path_parent path_stem path_join].
  apply simulates_bind; [apply (simulates_lift o)|intros ?].
  apply simulates_bind; [apply (simulates_lift o)|intros ?]. done.
Qed.

Lemma simulates_the_options {B} o
    (k' : @ConversionOptions PyAny -> M (@state (@Shared PyAny World)) B)
    (k : M (@state World) B) :
  simulates o (k' o) k -> simulates o (mbind the_options k') k.
Proof. intros Hk s. unfold mbind, the_options, gets. cbn. apply Hk. Qed.

Lemma simulates_convert_try o ff h input fmt t0 :
  simulates o (convert_try_shared (shared ff) (shared_host h) input fmt t0)
              (convert_try ff h input fmt o t0).
Proof.
  unfold convert_try_shared, convert_try.
  apply simulates_bind; [apply simulates_prepare_input|intros prepared].
  apply simulates_bind; [apply simulates_detect_format|intros f].
  rewrite !shared_is_format_supported.
  destruct (negb _); [done|].
  destruct (negb _); [done|].
  apply simulates_the_options.
  apply simulates_bind.
  { destruct (co_metadata o); [|done].
    apply simulates_bind; [apply simulates_extract_metadata|done]. }
  intros md.
  apply simulates_the_options.
  apply simulates_bind; [apply simulates_execute_conversion|intros data].
  apply simulates_bind; [done|intros t1].
  apply simulates_the_options.
  destruct (_ || _); [|done].
  apply simulates_bind; [apply simulates_save_output|done].
Qed.

(** With plug-ins that only read the options they are passed, the
    call on the shared object does what [convert] does, and leaves in
    the object what [convert] hands back as the options. *)
Lemma convert_shared_reading_only ff h input fmt o s :
  convert_shared (shared ff) (shared_host h) input fmt (sharing o s) =
  match convert ff h input fmt (Some o) s with
  | (r, o', s') => (r, sharing o' s')
  end.
Proof.
  unfold convert_shared, convert, try_except.
  unfold mbind at 1. cbn [assign_output_format modify].
  cbn [default from_option id].
  change (clock (shared_host h) (st_world (sharing o s))) with (clock h (st_world s)).
  match goal with
  | |- context [convert_try_shared ?ff' ?h' input fmt ?t0 ?s0] =>
      change s0 with (sharing (set_output_format o (Some fmt)) s)
  end.
  rewrite (simulates_convert_try (set_output_format o (Some fmt))).
  destruct (convert_try _ _ _ _ _ _ _) as [[r|e] s1]; done.
Qed.

End ReadingOnly.

(** * The further properties on the small host *)

(** Runs a conversion and hands its three components on. *)
Ltac with_conversion c k :=
  let t := eval vm_compute in c in
  lazymatch t with
  | (Ok ?r, ?o, ?s) => k r o s
  end.

(** Runs a batch and hands the components of what it returns on. *)
Ltac with_batch c k :=
  let t := eval vm_compute in c in
  lazymatch t with
  | Some (Ok ?b, ?bo, ?s) => k b bo s
  end.

Lemma convert_success_fields_witness :
  exists r o' s',
    convert Demo.forge Demo.host (InPath "a.txt") "md" None Demo.start = (Ok r, o', s') /\
    cr_success r = true /\
    exists buffer path s1 data,
      _prepare_input Demo.host (InPath "a.txt") Demo.start = (Ok (buffer, path), s1) /\
      cr_original_size r = length buffer /\
      cr_data r = Some data /\
      cr_output_size r = Some (length data) /\
      cr_output_format r = "md" /\
      is_format_supported Demo.forge (cr_original_format r) DirInput = true /\
      is_format_supported Demo.forge "md" DirOutput = true /\
      cr_errors r = [] /\
      (is_Some (cr_output_path r) <->
       truthy (co_output_dir o') || truthy (co_output_name o') = true).
Proof.
  with_conversion (convert Demo.forge Demo.host (InPath "a.txt") "md" None Demo.start)
    ltac:(fun r o s' =>
      exists r, o, s';
      assert (E : convert Demo.forge Demo.host (InPath "a.txt") "md" None Demo.start
                  = (Ok r, o, s')) by (vm_compute; reflexivity);
      split; [exact E|]; split; [reflexivity|];
      apply (convert_success_fields _ _ _ _ _ _ _ _ _ E); reflexivity).
Defined.

Lemma convert_failure_fields_witness :
  exists r o' s',
    convert Demo.forge Demo.host (InPath "a.txt") "pdf" None Demo.start = (Ok r, o', s') /\
    cr_success r = false /\
    cr_original_format r = "unknown" /\
    cr_original_size r = 0%nat /\
    cr_output_format r = "pdf" /\
    cr_data r = None /\
    cr_output_size r = None /\
    cr_metadata r = None /\
    cr_output_path r = None /\
    length (cr_errors r) = 1%nat /\
    cr_processing_time r
      = clock Demo.host (st_world s') - clock Demo.host (st_world Demo.start).
Proof.
  with_conversion (convert Demo.forge Demo.host (InPath "a.txt") "pdf" None Demo.start)
    ltac:(fun r o s' =>
      exists r, o, s';
      assert (E : convert Demo.forge Demo.host (InPath "a.txt") "pdf" None Demo.start
                  = (Ok r, o, s')) by (vm_compute; reflexivity);
      split; [exact E|]; split; [reflexivity|];
      apply (convert_failure_fields _ _ _ _ _ _ _ _ _ E); reflexivity).
Defined.

Lemma convert_read_error_witness :
  exists r o',
    convert Demo.forge Demo.host (InPath "c.txt") "md" None Demo.start
      = (Ok r, o', {| st_world := Demo.disk; st_log := [] |}) /\
    cr_success r = false /\
    cr_errors r = ["No such file or directory: c.txt"].
Proof.
  apply (convert_read_error Demo.forge Demo.host "c.txt" "md" None Demo.start
           (MkExn OSError "No such file or directory: c.txt") Demo.disk).
  reflexivity.
Defined.

(** Neither the input format nor the output format is known. *)
Lemma convert_input_checked_first_witness :
  is_format_supported Demo.forge "pdf" DirOutput = false /\
  exists r o',
    convert Demo.forge Demo.host (InBytes Demo.hello) "pdf" None Demo.start
      = (Ok r, o', Demo.start) /\
    cr_success r = false /\
    cr_errors r = ["Formato de entrada não suportado: unknown"].
Proof.
  split; [reflexivity|].
  apply (convert_input_checked_first Demo.forge Demo.host (InBytes Demo.hello) "pdf" None
           Demo.start Demo.hello None Demo.start "unknown" Demo.start);
    reflexivity.
Defined.

(** [txt] to [txt] at the default compression level, no plug-in for it. *)
Lemma same_format_without_optimizer_witness :
  co_compression (@ConversionOptions_default unit) = MEDIUM /\
  exists r,
    convert Demo.forge2 Demo.host (InPath "a.txt") "txt" None Demo.start
      = (Ok r, set_output_format ConversionOptions_default (Some "txt"), Demo.start) /\
    cr_success r = true /\
    cr_data r = Some Demo.hello /\
    cr_output_size r = Some (length Demo.hello).
Proof.
  split; [reflexivity|].
  apply (same_format_without_optimizer Demo.forge2 Demo.host (InPath "a.txt") "txt" None
           Demo.start Demo.hello (Some "a.txt") Demo.start Demo.start None Demo.start);
    reflexivity.
Defined.

Lemma convert_no_plugin_witness :
  exists r,
    convert Demo.forge3 Demo.host (InBytes Demo.pdf_bytes) "md" None Demo.start
      = (Ok r, set_output_format ConversionOptions_default (Some "md"), Demo.start) /\
    cr_success r = false /\
    cr_metadata r = None /\
    cr_errors r = ["Conversão não suportada: pdf → md"].
Proof.
  apply (convert_no_plugin Demo.forge3 Demo.host (InBytes Demo.pdf_bytes) "md" None
           Demo.start Demo.pdf_bytes None Demo.start "pdf" Demo.start None Demo.start);
    reflexivity.
Defined.


Lemma convert_with_unimplemented_plugin_witness :
  exists r,
    convert Demo.forge3 Demo.host (InBytes Demo.pdf_bytes) "txt" None Demo.start
      = (Ok r, set_output_format ConversionOptions_default (Some "txt"), Demo.start) /\
    cr_success r = false /\
    cr_errors r = [""].
Proof.
  apply (convert_with_unimplemented_plugin Demo.forge3 Demo.host
           (InBytes Demo.pdf_bytes) "txt" None Demo.start Demo.pdf_bytes None
           Demo.start "pdf" Demo.start None Demo.start Demo.pdf_text);
    reflexivity.
Defined.

(** The conversion works, the disk refuses the write. *)
Lemma convert_save_failure_discards_data_witness :
  exists r,
    convert Demo.forge Demo2.readonly (InPath "a.txt") "md" (Some Demo2.into_out) Demo.start
      = (Ok r, set_output_format Demo2.into_out (Some "md"), Demo.start) /\
    cr_success r = false /\
    cr_data r = None /\
    cr_errors r = ["Read-only file system"].
Proof.
  apply (convert_save_failure_discards_data Demo.forge Demo2.readonly (InPath "a.txt")
           "md" (Some Demo2.into_out) Demo.start Demo.hello (Some "a.txt") Demo.start
           "txt" Demo.start None Demo.start (rev Demo.hello) Demo.start
           (MkExn OSError "Read-only file system") Demo.start);
    reflexivity.
Defined.


(** The small disk reads back what was written to it. *)
Lemma persisted_output_reads_back_witness :
  exists r o' s',
    convert Demo.forge Demo.host (InPath "a.txt") "md" (Some Demo2.into_out) Demo.start
      = (Ok r, o', s') /\
    cr_output_path r = Some "out/a.md" /\
    exists data,
      cr_data r = Some data /\
      read_file Demo.host "out/a.md" (st_world s') = (Ok data, st_world s').
Proof.
  with_conversion
    (convert Demo.forge Demo.host (InPath "a.txt") "md" (Some Demo2.into_out) Demo.start)
    ltac:(fun r o s' =>
      exists r, o, s';
      assert (E : convert Demo.forge Demo.host (InPath "a.txt") "md"
                    (Some Demo2.into_out) Demo.start = (Ok r, o, s'))
        by (vm_compute; reflexivity);
      split; [exact E|]; split; [reflexivity|];
      apply (persisted_output_reads_back Demo.forge Demo.host (InPath "a.txt") "md"
               (Some Demo2.into_out) Demo.start r o s' "out/a.md");
      [ intros path b w w' [= <-]; unfold read_file, Demo.host, Demo.fs_read;
        simpl; rewrite String.eqb_refl; reflexivity
      | exact E
      | reflexivity ]).
Defined.

Lemma output_path_rule_witness :
  exists r o' s',
    convert Demo.forge Demo.host (InPath "a.txt") "md" (Some Demo2.into_out) Demo.start
      = (Ok r, o', s') /\
    cr_output_path r = Some "out/a.md" /\
    "out/a.md" = path_join Demo.host "out" (path_stem Demo.host "a.txt" +:+ "." +:+ "md").
Proof.
  with_conversion
    (convert Demo.forge Demo.host (InPath "a.txt") "md" (Some Demo2.into_out) Demo.start)
    ltac:(fun r o s' =>
      exists r, o, s';
      assert (E : convert Demo.forge Demo.host (InPath "a.txt") "md"
                    (Some Demo2.into_out) Demo.start = (Ok r, o, s'))
        by (vm_compute; reflexivity);
      split; [exact E|]; split; [reflexivity|];
      apply (output_path_rule _ _ _ _ _ _ _ _ _ "out/a.md" E); reflexivity).
Defined.

Lemma convert_extractor_sees_no_path_witness :
  convert {| plugin_manager := [Demo.reverser]; metadata_extractor := Demo.extract_ok |}
    Demo.host (InPath "a.txt") "md" (Some Demo.with_metadata) Demo.start
  = convert {| plugin_manager := [Demo.reverser];
               metadata_extractor := Demo2.extract_pathless |}
      Demo.host (InPath "a.txt") "md" (Some Demo.with_metadata) Demo.start.
Proof.
  apply (convert_extractor_sees_no_path [Demo.reverser] Demo.extract_ok
           Demo2.extract_pathless Demo.host (InPath "a.txt") "md"
           (Some Demo.with_metadata) Demo.start).
  intros buffer f w. reflexivity.
Defined.

Lemma detected_format_registered_or_sniffed_witness :
  is_format_supported Demo.forge "unknown" DirInput = true \/
  detect_format_by_signature Demo.host Demo.hello = Ok "unknown".
Proof.
  apply (detected_format_registered_or_sniffed Demo.forge Demo.host Demo.hello None
           Demo.start "unknown" Demo.start).
  reflexivity.
Defined.

(** Every conversion fails; the progress callback never raises. *)
Lemma batch_errors_only_from_progress_witness :
  exists b bo s',
    convert_batch Demo.forge Demo.host (ManyPatterns ["*.txt"; "c.txt"]) "pdf"
      (Some (Demo.batch_options 2 false (Some Demo.quiet))) Demo.start
      = Some (Ok b, bo, s') /\
    br_success_count b = 0%nat /\
    br_errors b = [] /\
    br_error_count b = 0%nat /\
    length (br_results b) = br_total_files b /\
    exists evs, st_log s' = (st_log Demo.start ++ evs)%list /\ error_calls evs = [].
Proof.
  with_batch
    (convert_batch Demo.forge Demo.host (ManyPatterns ["*.txt"; "c.txt"]) "pdf"
       (Some (Demo.batch_options 2 false (Some Demo.quiet))) Demo.start)
    ltac:(fun b bo s' =>
      exists b, bo, s';
      assert (E : convert_batch Demo.forge Demo.host (ManyPatterns ["*.txt"; "c.txt"])
                    "pdf" (Some (Demo.batch_options 2 false (Some Demo.quiet)))
                    Demo.start = Some (Ok b, bo, s'))
        by (vm_compute; reflexivity);
      split; [exact E|]; split; [reflexivity|];
      apply (batch_errors_only_from_progress Demo.forge Demo.host
               (ManyPatterns ["*.txt"; "c.txt"]) "pdf"
               (Some (Demo.batch_options 2 false (Some Demo.quiet))) Demo.start b bo s');
      [ simpl; intros current total file_path w; exists w; reflexivity | exact E ]).
Defined.

Lemma progress_called_once_per_file_witness :
  exists b bo s',
    convert_batch Demo.forge Demo.host (ManyPatterns ["*.txt"; "a.txt"]) "md"
      (Some (Demo.batch_options 5 true (Some Demo.quiet))) Demo.start
      = Some (Ok b, bo, s') /\
    exists evs,
      st_log s' = (st_log Demo.start ++ evs)%list /\
      progress_args evs ≡ₚ [(3%nat, "a.txt"); (3%nat, "b.txt"); (3%nat, "a.txt")].
Proof.
  with_batch
    (convert_batch Demo.forge Demo.host (ManyPatterns ["*.txt"; "a.txt"]) "md"
       (Some (Demo.batch_options 5 true (Some Demo.quiet))) Demo.start)
    ltac:(fun b bo s' =>
      exists b, bo, s';
      assert (E : convert_batch Demo.forge Demo.host (ManyPatterns ["*.txt"; "a.txt"])
                    "md" (Some (Demo.batch_options 5 true (Some Demo.quiet)))
                    Demo.start = Some (Ok b, bo, s'))
        by (vm_compute; reflexivity);
      split; [exact E|];
      apply (progress_called_once_per_file Demo.forge Demo.host
               (ManyPatterns ["*.txt"; "a.txt"]) "md"
               (Some (Demo.batch_options 5 true (Some Demo.quiet))) Demo.start b bo s' E)).
Defined.

(** The progress callback raises on [b.txt]. *)
Lemma error_callback_called_once_per_error_witness :
  exists b bo s',
    convert_batch Demo.forge Demo.host (ManyPatterns ["b.txt"; "a.txt"]) "md"
      (Some (Demo.batch_options 5 false (Some Demo.progress_failing))) Demo.start
      = Some (Ok b, bo, s') /\
    exists evs,
      st_log s' = (st_log Demo.start ++ evs)%list /\
      error_calls evs = br_errors b.
Proof.
  with_batch
    (convert_batch Demo.forge Demo.host (ManyPatterns ["b.txt"; "a.txt"]) "md"
       (Some (Demo.batch_options 5 false (Some Demo.progress_failing))) Demo.start)
    ltac:(fun b bo s' =>
      exists b, bo, s';
      assert (E : convert_batch Demo.forge Demo.host (ManyPatterns ["b.txt"; "a.txt"])
                    "md" (Some (Demo.batch_options 5 false (Some Demo.progress_failing)))
                    Demo.start = Some (Ok b, bo, s'))
        by (vm_compute; reflexivity);
      split; [exact E|];
      apply (error_callback_called_once_per_error Demo.forge Demo.host
               (ManyPatterns ["b.txt"; "a.txt"]) "md"
               (Some (Demo.batch_options 5 false (Some Demo.progress_failing)))
               Demo.start b bo s' E)).
Defined.

Lemma batch_errors_name_matched_files_witness :
  exists b bo s',
    convert_batch Demo.forge Demo.host (ManyPatterns ["b.txt"; "a.txt"]) "md"
      (Some (Demo.batch_options 5 false (Some Demo.progress_failing))) Demo.start
      = Some (Ok b, bo, s') /\
    map ee_file (br_errors b) = ["b.txt"] /\
    map ee_file (br_errors b) ⊆+ ["b.txt"; "a.txt"].
Proof.
  with_batch
    (convert_batch Demo.forge Demo.host (ManyPatterns ["b.txt"; "a.txt"]) "md"
       (Some (Demo.batch_options 5 false (Some Demo.progress_failing))) Demo.start)
    ltac:(fun b bo s' =>
      exists b, bo, s';
      assert (E : convert_batch Demo.forge Demo.host (ManyPatterns ["b.txt"; "a.txt"])
                    "md" (Some (Demo.batch_options 5 false (Some Demo.progress_failing)))
                    Demo.start = Some (Ok b, bo, s'))
        by (vm_compute; reflexivity);
      split; [exact E|]; split; [reflexivity|];
      apply (batch_errors_name_matched_files Demo.forge Demo.host
               (ManyPatterns ["b.txt"; "a.txt"]) "md"
               (Some (Demo.batch_options 5 false (Some Demo.progress_failing)))
               Demo.start b bo s' E)).
Defined.

(** Two files, neither of which can be written as [pdf]. *)
Lemma batch_results_well_shaped_witness :
  exists b bo s',
    convert_batch Demo.forge Demo.host (ManyPatterns ["*.txt"]) "pdf"
      (Some (Demo.batch_options 5 true None)) Demo.start
      = Some (Ok b, bo, s') /\
    map cr_success (br_results b) = [false; false] /\
    Forall (fun r => shape_invariant r /\ cr_output_format r = "pdf") (br_results b).
Proof.
  with_batch
    (convert_batch Demo.forge Demo.host (ManyPatterns ["*.txt"]) "pdf"
       (Some (Demo.batch_options 5 true None)) Demo.start)
    ltac:(fun b bo s' =>
      exists b, bo, s';
      assert (E : convert_batch Demo.forge Demo.host (ManyPatterns ["*.txt"]) "pdf"
                    (Some (Demo.batch_options 5 true None)) Demo.start
                  = Some (Ok b, bo, s'))
        by (vm_compute; reflexivity);
      split; [exact E|]; split; [reflexivity|];
      apply (batch_results_well_shaped Demo.forge Demo.host (ManyPatterns ["*.txt"])
               "pdf" (Some (Demo.batch_options 5 true None)) Demo.start b bo s' E)).
Defined.

(** Nothing matches, and the semaphore has no slot at all. *)
Lemma empty_batch_witness :
  convert_batch Demo.forge Demo.host (ManyPatterns ["*.nomatch"]) "txt"
    (Some (Demo.batch_options 0 true None)) Demo.start
  = Some (Ok {| br_total_files := 0; br_success_count := 0; br_error_count := 0;
                br_results := []; br_errors := []; br_total_time := 0 |},
          Demo.batch_options 0 true None, Demo.start).
Proof.
  apply (empty_batch Demo.forge Demo.host (ManyPatterns ["*.nomatch"]) "txt"
           (Some (Demo.batch_options 0 true None)) Demo.start).
  - reflexivity.
  - simpl. lia.
Defined.

(** ** Expected failures and the shared options object *)

(** C1 fails as stated: the plug-in for [pdf] to [txt] raises the bare
    [NotImplementedError] of the base class; the failure is reported,
    and the message in [errors] is the empty string. *)
Lemma messageless_failure_counterexample :
  pl_convert Demo.pdf_text Demo.pdf_bytes
      (set_output_format ConversionOptions_default (Some "txt")) Demo.disk
    = Plugin_convert (PyAny:=unit) Demo.pdf_bytes
        (set_output_format ConversionOptions_default (Some "txt")) Demo.disk /\
  expected_failure Demo.forge3 Demo.host (InBytes Demo.pdf_bytes) "txt"
    (set_output_format ConversionOptions_default (Some "txt")) Demo.start
    (MkExn NotImplementedError "") Demo.start /\
  exists r o s',
    convert Demo.forge3 Demo.host (InBytes Demo.pdf_bytes) "txt" None Demo.start
      = (Ok r, o, s') /\
    cr_success r = false /\
    cr_errors r = [""].
Proof.
  split; [reflexivity|]. split.
  - eapply (plugin_failure _ _ _ _ _ _ Demo.pdf_bytes None Demo.start "pdf" Demo.start
              None Demo.start Demo.pdf_text (MkExn NotImplementedError "") Demo.disk);
      reflexivity.
  - vm_compute. do 3 eexists. split; [reflexivity|]. done.
Qed.

(** [pdf] is read and [md] is written, but by different plug-ins. *)
Lemma convert_reports_expected_failures_witness :
  exists r,
    convert Demo.forge3 Demo.host (InBytes Demo.pdf_bytes) "md" None Demo.start
      = (Ok r, set_output_format ConversionOptions_default (Some "md"), Demo.start) /\
    cr_success r = false /\
    cr_data r = None /\
    cr_errors r = ["Conversão não suportada: pdf → md"].
Proof.
  apply (convert_reports_expected_failures Demo.forge3 Demo.host (InBytes Demo.pdf_bytes)
           "md" None Demo.start
           (MkExn ValueError "Conversão não suportada: pdf → md") Demo.start).
  apply (no_matching_plugin _ _ _ _ _ _ Demo.pdf_bytes None Demo.start "pdf" Demo.start
           None Demo.start); reflexivity.
Defined.

(** The plug-in of the small registry reads its options and no more. *)
Lemma convert_shared_options_frame_witness :
  exists r s',
    convert_shared (shared_forge [reading_only Demo.reverser] Demo.extract_ok)
      (shared_host Demo.host) (InPath "a.txt") "md" (Demo3.start Demo.with_metadata)
      = (Ok r, s') /\
    let o := Demo.with_metadata in
    let o' := sh_options (st_world s') in
    co_output_format o' = Some "md" /\
    co_output_dir o' = co_output_dir o /\
    co_output_name o' = co_output_name o /\
    co_compression o' = co_compression o /\
    co_quality o' = co_quality o /\
    co_ocr o' = co_ocr o /\
    co_ocr_language o' = co_ocr_language o /\
    co_metadata o' = co_metadata o /\
    co_streaming o' = co_streaming o /\
    co_buffer_size o' = co_buffer_size o /\
    co_format_options o' = co_format_options o /\
    co_ai o' = co_ai o /\
    co_tts o' = co_tts o /\
    co_image o' = co_image o /\
    co_video o' = co_video o /\
    co_audio o' = co_audio o /\
    co_debug o' = co_debug o /\
    co_plugin o' = co_plugin o.
Proof.
  apply (convert_shared_options_frame [reading_only Demo.reverser] Demo.extract_ok
           Demo.host (InPath "a.txt") "md" (Demo3.start Demo.with_metadata)).
  intros p [<-|[]] data o sh. reflexivity.
Defined.

(** A plug-in that writes to the object it is passed: the conversion
    succeeds, and the caller finds the quality changed. *)
Example writing_plugin_seen_by_caller :
  exists r s',
    convert_shared (shared_forge [Demo3.scribbler] Demo.extract_ok)
      (shared_host Demo.host) (InPath "a.txt") "md" (Demo3.start Demo.defaults)
      = (Ok r, s') /\
    cr_success r = true /\
    co_quality Demo.defaults = 85 /\
    co_quality (sh_options (st_world s')) = 100 /\
    co_output_format (sh_options (st_world s')) = Some "md".
Proof.
  vm_compute. do 2 eexists. split; [reflexivity|]. done.
Qed.
